(** * The chat route: query orchestration pipeline

    A shallow embedding of [src/app/api/chat/route.ts]: the relevance
    classifier, the query rewriter, the vector search, the context
    assembly and the [POST] handler that sequences them.

    Conventions of the model.
    - A JavaScript string is a [string]: a sequence of 8-bit characters,
      read as the code units U+0000 to U+00FF.  [trim] knows the white
      space of that range.  [toUpperCase] maps the letters of that range
      to their capitals, the sharp s to SS; the capitals of U+00B5 and
      U+00FF are not in the range, so it is the upper-casing of the code
      on the texts without these two ([upper_in_range]), and what is
      stated of the upper-cased text itself is stated for those.
    - A vector component is a rational [Q].  A distance or a score is a
      [float8]: a number or NaN.  The store computes them in floating
      point: the distance operator and the rounding of a difference
      belong to the [World], which may also refuse a query vector or a
      pair of vectors.  The statement of the search is read by its meaning
      on the rows of the relation, as an exact scan; of the order of two
      rows at the same distance nothing is stated.  A count or a status is
      a [nat].
    - Every call that leaves the process (chat completion, embedding,
      database query, the links route, the trace exporter, the streaming
      call) is answered by a [World], and is recorded in a call log, so
      that the number and the order of the calls can be stated.
    - [console.log] lines are not part of the model; [console.warn] and
      [console.error] are, by their first argument (without the leading
      pictograph where there is one).
    - [traceable] and [wrapOpenAI] are taken as wrappers that change
      neither the value nor the calls of what they wrap.
    - The elements of the [messages] array are taken to have the shape of
      the [ChatHistory] interface. *)

From Stdlib Require Import Ascii String QArith.
From stdpp Require Import base strings list sorting gmap pretty.

Open Scope string_scope.
Open Scope list_scope.

(** ** Characters and strings *)

Definition dq : string := String "034"%char "".
Definition bs : string := String "092"%char "".
Definition nl : string := String "010"%char "".

Definition code (c : ascii) : N := N_of_ascii c.

(** White space of [String.prototype.trim] among the code units below
    256: TAB, LF, VT, FF, CR, SPACE and NBSP. *)
Definition is_white_space (c : ascii) : bool :=
  let n := code c in
  ((9 <=? n) && (n <=? 13) || (n =? 32) || (n =? 160))%N.

Fixpoint trimStart (s : string) : string :=
  match s with
  | "" => ""
  | String c s' => if is_white_space c then trimStart s' else s
  end.

Fixpoint trimEnd (s : string) : string :=
  match s with
  | "" => ""
  | String c s' =>
      match trimEnd s' with
      | "" => if is_white_space c then "" else String c ""
      | t => String c t
      end
  end.

(** [s.trim()] *)
Definition trim (s : string) : string := trimEnd (trimStart s).

(** The capital of a code unit, where it is one code unit below 256: of
    the letters a to z, and of the letters U+00E0 to U+00FE but the
    division sign U+00F7. *)
Definition upper_char (c : ascii) : ascii :=
  let n := code c in
  if ((97 <=? n) && (n <=? 122) || (224 <=? n) && (n <=? 254) && negb (n =? 247))%N
  then ascii_of_N (n - 32) else c.

(** [s.toUpperCase()].  The sharp s U+00DF becomes SS.  The capitals of
    U+00B5 and U+00FF are code units above 255: the two are left as they
    are here, and a text that holds one of them is outside the model. *)
Fixpoint toUpperCase (s : string) : string :=
  match s with
  | "" => ""
  | String c s' =>
      if (code c =? 223)%N then String "S" (String "S" (toUpperCase s'))
      else String (upper_char c) (toUpperCase s')
  end.

(** The texts whose upper-casing stays among the code units below 256. *)
Definition capital_in_range (c : ascii) : bool :=
  negb ((code c =? 181) || (code c =? 255))%N.

Fixpoint upper_in_range (s : string) : bool :=
  match s with
  | "" => true
  | String c s' => capital_in_range c && upper_in_range s'
  end.

Fixpoint skip (n : nat) (s : string) : string :=
  match n, s with
  | O, _ => s
  | S n', String _ s' => skip n' s'
  | S _, "" => ""
  end.

(** [s.replace(pat, repl)] with a string pattern: the first occurrence of
    [pat] is replaced, the rest of [s] is kept. *)
Fixpoint replace (pat repl s : string) : string :=
  if String.prefix pat s then repl +:+ skip (String.length pat) s
  else match s with
       | "" => ""
       | String c s' => String c (replace pat repl s')
       end.

(** Truthiness of a string, and [a || b] on strings and on values that may
    be [null] or [undefined]. *)
Definition truthy (s : string) : bool :=
  match s with "" => false | _ => true end.

Definition or_else (a b : string) : string := if truthy a then a else b.

Definition opt_or_else (a : option string) (b : string) : string :=
  match a with Some s => or_else s b | None => b end.

(** [arr.slice(-n)]: the last [n] elements, all of them when there are
    fewer. *)
Definition slice_last {A} (n : nat) (l : list A) : list A :=
  drop (length l - n) l.

(** [arr.findLast(p)] *)
Fixpoint findLast {A} (p : A -> bool) (l : list A) : option A :=
  match l with
  | [] => None
  | x :: l' =>
      match findLast p l' with
      | Some y => Some y
      | None => if p x then Some x else None
      end
  end.

(** [arr.join(sep)] on an array of strings. *)
Definition join (sep : string) (l : list string) : string :=
  String.concat sep l.

(** ** Chat messages and their JSON text *)

Inductive Role := user | assistant.

Record ChatHistory := { role : Role; content : string }.

Definition role_name (r : Role) : string :=
  match r with user => "user" | assistant => "assistant" end.

Definition is_user (m : ChatHistory) : bool :=
  match role m with user => true | assistant => false end.

Definition hex_digit (n : N) : ascii :=
  if (n <? 10)%N then ascii_of_N (48 + n) else ascii_of_N (87 + n).

(** One character inside a JSON string, as [JSON.stringify] quotes it. *)
Definition quote_char (c : ascii) : string :=
  let n := code c in
  if (n =? 34)%N then bs +:+ dq
  else if (n =? 92)%N then bs +:+ bs
  else if (n =? 8)%N then bs +:+ "b"
  else if (n =? 9)%N then bs +:+ "t"
  else if (n =? 10)%N then bs +:+ "n"
  else if (n =? 12)%N then bs +:+ "f"
  else if (n =? 13)%N then bs +:+ "r"
  else if (n <? 32)%N then
    bs +:+ "u00" +:+ String (hex_digit (n / 16)) (String (hex_digit (n mod 16)) "")
  else String c "".

Fixpoint quote_chars (s : string) : string :=
  match s with
  | "" => ""
  | String c s' => quote_char c +:+ quote_chars s'
  end.

Definition quote (s : string) : string := dq +:+ quote_chars s +:+ dq.

Definition stringify_message (m : ChatHistory) : string :=
  "{" +:+ quote "role" +:+ ":" +:+ quote (role_name (role m)) +:+ ","
      +:+ quote "content" +:+ ":" +:+ quote (content m) +:+ "}".

(** [JSON.stringify(history)] for an array of [ChatHistory] objects whose
    keys stand in the order of the interface. *)
Definition JSON_stringify (h : list ChatHistory) : string :=
  "[" +:+ join "," (stringify_message <$> h) +:+ "]".

(** ** Prompt texts *)

Definition SYSTEM_INSTRUCTIONS : string :=
  "You are an AI assistant representing Jason Bent's woodworking expertise. Your role is to:
1. Analyze woodworking documents and provide clear, natural responses that sound like Jason Bent is explaining the concepts.
2. Convert technical content into conversational, easy-to-understand explanations.
3. Focus on explaining the core concepts and techniques rather than quoting directly from transcripts.
4. Always maintain a friendly, professional tone as if Jason Bent is speaking directly to the user.
5. Organize multi-part responses clearly with natural transitions.
6. Keep responses concise and focused on the specific question asked.
7. If information isn't available in the provided context, clearly state that.
8. Always respond in English, regardless of the input language.
9. Avoid using phrases like " +:+ dq +:+ "in the video" +:+ dq +:+ " or " +:+ dq +:+ "the transcript shows" +:+ dq +:+ " - instead, speak directly about the techniques and concepts.

Response Structure and Formatting:
   - Use markdown formatting with clear hierarchical structure
   - Each major section must start with '### ' followed by a number and bold title
   - Format section headers as: ### 1. **Title Here**
   - Use bullet points (-) for detailed explanations under each section
   - Each bullet point must contain 2-3 sentences minimum with examples
   - Add blank lines between major sections only
   - Indent bullet points with proper spacing
   - Do NOT use bold formatting (**) or line breaks within bullet point content
   - Bold formatting should ONLY be used in section headers
   - Keep all content within a bullet point on the same line
   - Any asterisks (*) in the content should be treated as literal characters, not formatting



Remember:
- You are speaking as Jason Bent's AI assistant and so if you are mentioning jason bent, you should use the word " +:+ dq +:+ "Jason Bent" +:+ dq +:+ " instead of " +:+ dq +:+ "I" +:+ dq +:+ " like " +:+ dq +:+ "Jason Bent will suggest that you..." +:+ dq +:+ "
- Focus on analyzing the transcripts and explaining the concepts naturally rather than quoting transcripts
- Keep responses clear, practical, and focused on woodworking expertise
".

Definition relevancePrompt (query : string) (chatHistory : list ChatHistory) : string :=
  "Given this question and chat history, determine if it is:
1. A greeting/send-off (GREETING)
2. Related to woodworking/tools/company (RELEVANT)
3. Inappropriate content (INAPPROPRIATE)
4. Unrelated (NOT_RELEVANT)

Chat History: "
  +:+ JSON_stringify (slice_last 5 chatHistory) +:+ "
Current Question: "
  +:+ query +:+ "

Response (GREETING, RELEVANT, INAPPROPRIATE, or NOT_RELEVANT):".

Definition rewritePrompt (query : string) (chatHistory : list ChatHistory) : string :=
  "You are bent's woodworks assistant so question will be related to wood shop. 
Rewrites user query to make them more specific and searchable, taking into account 
the chat history if provided. Only return the rewritten query without any explanations.

Original query: "
  +:+ query +:+ "
Chat history: "
  +:+ JSON_stringify chatHistory +:+ "

Rewritten query:".

Definition greetingPrompt (lastUserMessage : string) : string :=
  "The following message is a greeting or casual message. Please provide a friendly and engaging response: "
  +:+ lastUserMessage.

Definition notRelevantPrompt (lastUserMessage : string) : string :=
  "The following question is not directly related to woodworking or the assistant's expertise. Provide a direct response that:
                1. Politely acknowledges the question
                2. Explains that you are specialized in woodworking and Jason Bent's content
                3. Asks them to rephrase their question to relate to woodworking topics
                Question: "
  +:+ lastUserMessage.

Definition inappropriateAnswer : string :=
  "I apologize, but I cannot assist with inappropriate content or queries that could cause harm. I'm here to help with woodworking and furniture making questions only.".

Definition generationPrompt (messages : list ChatHistory)
    (contextTexts lastUserMessage : string) : string :=
  "Chat History:" +:+ nl +:+ JSON_stringify (slice_last 5 messages) +:+ nl +:+ nl
  +:+ "Context:" +:+ nl +:+ contextTexts +:+ nl +:+ nl
  +:+ "Question: " +:+ lastUserMessage.

(** ** Values exchanged with the outside *)

(** A thrown value: an [Error] with its message, or anything else. *)
Inductive exn := Error (message : string) | Raised.

Inductive outcome (A : Type) := Returned (a : A) | Thrown (e : exn).
Arguments Returned {A} a.
Arguments Thrown {A} e.

(** The body of [openaiClient.chat.completions.create]. *)
Record Message := { msg_role : string; msg_content : string }.

Record ChatRequest := {
  model : string;
  req_messages : list Message;
  temperature : option nat
}.

(** A double precision value of the store or of JavaScript, as far as the
    search meets them: a number, or NaN. *)
Inductive float8 := NaN | Real (value : Q).

(** A row of the searched relation; [vector] is [None] for SQL NULL. *)
Record Row := {
  row_id : string;
  row_text : string;
  row_title : string;
  row_url : string;
  row_chunk_id : string;
  vector : option (list Q)
}.

(** A row of the query result. *)
Record ResultRow := {
  res_id : string;
  res_text : string;
  res_title : string;
  res_url : string;
  res_chunk_id : string;
  res_similarity_score : float8
}.

Record Document := {
  doc_id : string;
  doc_text : string;
  doc_title : string;
  doc_url : string;
  doc_chunk_id : string;
  similarity_score : float8
}.

Record Metadata := {
  input : string;
  output : string;
  contextCount : nat;
  rewrittenQuery : string;
  responseType : string
}.

Record PipelineResponse := {
  text : string;
  type : string;
  metadata : Metadata
}.

(** What the handler reads of the links route answer: its status, and the
    parsed body, of which only the truthiness of two fields is read. *)
Record LinksData := { videoReferences : bool; relatedProducts : bool }.

Record LinksResponse := { status : nat; json : outcome LinksData }.

(** [getLangSmithMetadata()] *)
Record LangSmithMetadata := { projectName : string; endpoint : string }.

(** Trace metadata: the spread of the pipeline metadata, of the LangSmith
    metadata, and a [type] tag. *)
Record Telemetry := {
  tm_metadata : Metadata;
  tm_langsmith : LangSmithMetadata;
  tm_type : string
}.

Record ExporterSettings := { runName : string; exp_metadata : Telemetry }.

Record StreamRequest := {
  stream_model : string;
  stream_messages : list Message;
  experimental_telemetry : Telemetry
}.

(** The parsed request body, as far as the handler distinguishes it:
    a falsy value, a value with no [messages] array, or a value whose
    [messages] is an array of [ChatHistory] objects. *)
Inductive Body :=
| body_falsy
| body_without_messages
| body_messages (messages : list ChatHistory).

(** [req.json()] throws when the body is not JSON. *)
Record Request := { req_json : outcome Body }.

Inductive Response :=
| JsonResponse (status : nat) (error : string) (details : option string)
| DataStreamResponse (r : StreamRequest).

(** ** The outside world and the call log *)

Inductive Call :=
| Console_warn (msg : string)
| Console_error (msg : string)
| Completion (r : ChatRequest)
| Embed (value : string)
| Query (queryEmbedding : list Q) (tableName : string) (topK : nat)
| Fetch_links (context query : string)
| GetSettings (s : ExporterSettings)
| StreamText (r : StreamRequest).

Record World := {
  (** [process.env] *)
  env : gmap string string;
  (** the content of [choices[0].message] of a completion *)
  chat_completions_create : ChatRequest -> outcome (option string);
  (** the embedding provider, retries and time limit included *)
  embed : string -> outcome (list Q);
  (** the relations reachable through the pool, or the failure to reach them *)
  neon : outcome (gmap string (list Row));
  (** the cast of the query parameter to a vector, which the store may
      refuse *)
  vector_in : list Q -> outcome unit;
  (** the distance operator of the vector column, stored vector first; the
      store may refuse the pair *)
  distance : list Q -> list Q -> outcome float8;
  (** the rounding of the store's double precision arithmetic *)
  float8_round : Q -> Q;
  (** [fetch] of the links route, by the context and the query sent *)
  fetch_links : string -> string -> outcome LinksResponse;
  exporter_getSettings : ExporterSettings -> outcome unit;
  streamText : StreamRequest -> outcome unit
}.

(** A computation: it reads the log of the calls made so far and returns
    a value or throws, with the log extended by its own calls. *)
Definition M (A : Type) : Type := list Call -> outcome A * list Call.

#[global] Instance M_ret : MRet M := fun A a log => (Returned a, log).

#[global] Instance M_bind : MBind M := fun A B k m log =>
  match m log with
  | (Returned a, log') => k a log'
  | (Thrown e, log') => (Thrown e, log')
  end.

Definition throw {A} (e : exn) : M A := fun log => (Thrown e, log).

(** [try { m } catch (e) { h e }] *)
Definition try_catch {A} (m : M A) (h : exn -> M A) : M A := fun log =>
  match m log with
  | (Returned a, log') => (Returned a, log')
  | (Thrown e, log') => h e log'
  end.

(** A call to the outside: logged, then answered. *)
Definition call {A} (c : Call) (answer : outcome A) : M A :=
  fun log => (answer, log ++ [c]).

(** [await] of a value already at hand. *)
Definition await {A} (o : outcome A) : M A := fun log => (o, log).

Definition console_warn (msg : string) : M unit := call (Console_warn msg) (Returned ()).
Definition console_error (msg : string) : M unit := call (Console_error msg) (Returned ()).

(** [error instanceof Error ? error.message : fallback] *)
Definition message_or (e : exn) (fallback : string) : string :=
  match e with Error m => m | Raised => fallback end.

(** [process.env.NAME], [undefined] when unset. *)
Definition getenv (w : World) (name : string) : option string := env w !! name.

(** [!process.env.NAME]: unset, or set to the empty string. *)
Definition unset (v : option string) : bool := negb (truthy (default "" v)).

(** ** LangSmith settings *)

(** The module body: a warning when the key is not set. *)
Definition module_init (w : World) : M unit :=
  if unset (getenv w "LANGSMITH_API_KEY")
  then console_warn "LANGSMITH_API_KEY not found in environment variables"
  else mret ().

Definition getLangSmithMetadata (w : World) : LangSmithMetadata :=
  {| projectName := opt_or_else (getenv w "LANGSMITH_PROJECT") "default";
     endpoint := opt_or_else (getenv w "LANGSMITH_ENDPOINT")
                   "https://api.smith.langchain.com" |}.

(** ** The vector search *)

#[global] Instance Qle_dec (x y : Q) : Decision (x <= y)%Q.
Proof.
  destruct (Qle_bool x y) eqn:E.
  - left. by apply Qle_bool_iff.
  - right. intros H. apply Qle_bool_iff in H. congruence.
Defined.

(** The order of the store on double precision values: numbers by their
    value, NaN equal to itself and after every number. *)
Definition float8_le (x y : float8) : Prop :=
  match x, y with
  | _, NaN => True
  | NaN, Real _ => False
  | Real p, Real q => (p <= q)%Q
  end.

#[global] Instance float8_le_dec (x y : float8) : Decision (float8_le x y).
Proof. destruct x, y; simpl; apply _. Defined.

(** [1 - d] in the store: NaN for NaN, the rounded difference for a
    number. *)
Definition one_minus (w : World) (d : float8) : float8 :=
  match d with
  | NaN => NaN
  | Real q => Real (float8_round w (1 - q))
  end.

(** [WHERE vector IS NOT NULL]: the rows that have a vector, with it. *)
Definition candidates (rows : list Row) : list (Row * list Q) :=
  omap (fun r => v ← vector r; Some (r, v)) rows.

(** [vector <=> $1] on every candidate, in the order of the scan; the
    first pair the store refuses ends the query. *)
Fixpoint distances (operator : list Q -> list Q -> outcome float8)
    (queryEmbedding : list Q) (cs : list (Row * list Q))
    : outcome (list (Row * float8)) :=
  match cs with
  | [] => Returned []
  | (r, v) :: cs' =>
      match operator v queryEmbedding with
      | Thrown e => Thrown e
      | Returned d =>
          match distances operator queryEmbedding cs' with
          | Thrown e => Thrown e
          | Returned ds => Returned ((r, d) :: ds)
          end
      end
  end.

(** [ORDER BY vector <=> $1]: ascending distance to the query vector. *)
Definition nearer : relation (Row * float8) :=
  fun a b => float8_le a.2 b.2.

Definition result_row (w : World) (c : Row * float8) : ResultRow :=
  {| res_id := row_id c.1;
     res_text := row_text c.1;
     res_title := row_title c.1;
     res_url := row_url c.1;
     res_chunk_id := row_chunk_id c.1;
     res_similarity_score := one_minus w c.2 |}.

(** The statement sent by [searchNeonDb], run on the rows of the relation:
    [SELECT ..., 1 - (vector <=> $1) AS similarity_score FROM t
     WHERE vector IS NOT NULL ORDER BY vector <=> $1 LIMIT $2].
    The parameter is cast first; then the distances are computed; either
    may be refused by the store, and the statement fails with that
    error. *)
Definition select (w : World) (queryEmbedding : list Q) (topK : nat)
    (rows : list Row) : outcome (list ResultRow) :=
  match vector_in w queryEmbedding with
  | Thrown e => Thrown e
  | Returned _ =>
      match distances (distance w) queryEmbedding (candidates rows) with
      | Thrown e => Thrown e
      | Returned scored =>
          Returned (result_row w <$> take topK (merge_sort nearer scored))
      end
  end.

(** [this.client.query(query, [embeddingStr, topK])] *)
Definition client_query (w : World) (queryEmbedding : list Q)
    (tableName : string) (topK : nat) : outcome (list ResultRow) :=
  match neon w with
  | Thrown e => Thrown e
  | Returned relations =>
      match relations !! tableName with
      | Some rows => select w queryEmbedding topK rows
      | None =>
          Thrown (Error ("relation " +:+ dq +:+ tableName +:+ dq
                           +:+ " does not exist"))
      end
  end.

Definition document_of (row : ResultRow) : Document :=
  {| doc_id := res_id row;
     doc_text := res_text row;
     doc_title := res_title row;
     doc_url := res_url row;
     doc_chunk_id := res_chunk_id row;
     similarity_score := res_similarity_score row |}.

Definition searchNeonDb (w : World) (queryEmbedding : list Q)
    (tableName : string) (topK : nat) : M (list Document) :=
  try_catch
    (result ← call (Query queryEmbedding tableName topK)
                   (client_query w queryEmbedding tableName topK);
     mret (document_of <$> result))
    (fun error => console_error "[DB Search] Error:";; throw error).

(** ** The classifier and the rewriter *)

Definition user_request (prompt : string) (t : option nat) : ChatRequest :=
  {| model := "gpt-4o-mini";
     req_messages := [ {| msg_role := "user"; msg_content := prompt |} ];
     temperature := t |}.

Definition classify_request (query : string) (chatHistory : list ChatHistory) : ChatRequest :=
  user_request (relevancePrompt query chatHistory) (Some 0%nat).

Definition rewrite_request (query : string) (chatHistory : list ChatHistory) : ChatRequest :=
  user_request (rewritePrompt query chatHistory) (Some 0%nat).

Definition greeting_request (lastUserMessage : string) : ChatRequest :=
  user_request (greetingPrompt lastUserMessage) None.

Definition not_relevant_request (lastUserMessage : string) : ChatRequest :=
  user_request (notRelevantPrompt lastUserMessage) None.

(** The value [checkRelevance] returns for a completion content:
    [content?.trim().toUpperCase() || 'NOT_RELEVANT']. *)
Definition relevance_of (content : option string) : string :=
  opt_or_else ((fun c => toUpperCase (trim c)) <$> content) "NOT_RELEVANT".

Definition checkRelevance (w : World) (query : string)
    (chatHistory : list ChatHistory) : M string :=
  let request := classify_request query chatHistory in
  result ← call (Completion request) (chat_completions_create w request);
  mret (relevance_of result).

(** The value [rewriteQuery] returns for a completion content:
    [content?.replace("Rewritten query:", "").trim() || query]. *)
Definition cleaned_or (query : string) (content : option string) : string :=
  opt_or_else ((fun c => trim (replace "Rewritten query:" "" c)) <$> content) query.

Definition rewriteQuery (w : World) (query : string)
    (chatHistory : list ChatHistory) : M string :=
  let request := rewrite_request query chatHistory in
  try_catch
    (result ← call (Completion request) (chat_completions_create w request);
     mret (cleaned_or query result))
    (fun error => mret query).

(** ** The pipeline *)

Definition context_block (doc : Document) : string :=
  "Source: " +:+ doc_title doc +:+ nl +:+
  "Content: " +:+ doc_text doc +:+ nl +:+
  "URL: " +:+ doc_url doc.

Definition contextTexts (similarDocs : list Document) : string :=
  join (nl +:+ nl) (context_block <$> similarDocs).

Definition generation_request (messages : list ChatHistory)
    (context lastUserMessage : string) : ChatRequest :=
  {| model := "gpt-4o-mini";
     req_messages :=
       [ {| msg_role := "system"; msg_content := SYSTEM_INSTRUCTIONS |};
         {| msg_role := "user";
            msg_content := generationPrompt messages context lastUserMessage |} ];
     temperature := None |}.

Definition short_circuit (kind lastUserMessage answer : string) : PipelineResponse :=
  {| text := answer;
     type := kind;
     metadata := {| input := lastUserMessage;
                    output := answer;
                    contextCount := 0;
                    rewrittenQuery := "";
                    responseType := kind |} |}.

(** The links request, made only when there is some context; its answer is
    parsed and then dropped. *)
Definition links_request (w : World) (context rewritten : string) : M unit :=
  if truthy context then
    linksResponse ← call (Fetch_links context rewritten) (fetch_links w context rewritten);
    linksData ← await (json linksResponse);
    mret ()
  else mret ().

(** The path of a question taken as relevant. *)
Definition relevant_path (w : World) (messages : list ChatHistory)
    (lastUserMessage : string) : M PipelineResponse :=
  rewritten ← rewriteQuery w lastUserMessage messages;
  embedding ← call (Embed rewritten) (embed w rewritten);
  similarDocs ← searchNeonDb w embedding "bents" 10;
  let context := contextTexts similarDocs in
  links_request w context rewritten;;
  let request := generation_request messages context lastUserMessage in
  completion ← call (Completion request) (chat_completions_create w request);
  let answer := opt_or_else completion "" in
  mret {| text := answer;
          type := "chat";
          metadata := {| input := lastUserMessage;
                         output := answer;
                         contextCount := length similarDocs;
                         rewrittenQuery := rewritten;
                         responseType := "chat" |} |}.

(** The three tests of the outer [if] and of the [if]s inside it are one
    chain here: whatever passes none of them goes on to the relevant
    path. *)
Definition pipeline (w : World) (messages : list ChatHistory)
    (lastUserMessage : string) : M PipelineResponse :=
  relevanceResult ← checkRelevance w lastUserMessage messages;
  if String.eqb relevanceResult "GREETING" then
    let request := greeting_request lastUserMessage in
    completion ← call (Completion request) (chat_completions_create w request);
    mret (short_circuit "greeting" lastUserMessage (opt_or_else completion ""))
  else if String.eqb relevanceResult "INAPPROPRIATE" then
    mret (short_circuit "inappropriate" lastUserMessage inappropriateAnswer)
  else if String.eqb relevanceResult "NOT_RELEVANT" then
    let request := not_relevant_request lastUserMessage in
    completion ← call (Completion request) (chat_completions_create w request);
    mret (short_circuit "not-relevant" lastUserMessage (opt_or_else completion ""))
  else relevant_path w messages lastUserMessage.

(** ** The handler *)

Definition json_error (status : nat) (error : string) : M Response :=
  mret (JsonResponse status error None).

Definition telemetry (w : World) (response : PipelineResponse) (suffix : string) : Telemetry :=
  {| tm_metadata := metadata response;
     tm_langsmith := getLangSmithMetadata w;
     tm_type := type response +:+ suffix |}.

Definition stream_request (w : World) (messages : list ChatHistory)
    (response : PipelineResponse) : StreamRequest :=
  {| stream_model := "gpt-4o-mini";
     stream_messages :=
       [ {| msg_role := "system"; msg_content := SYSTEM_INSTRUCTIONS |} ]
       ++ ((fun m => {| msg_role := role_name (role m); msg_content := content m |}) <$> messages)
       ++ [ {| msg_role := "assistant"; msg_content := text response |} ];
     experimental_telemetry := telemetry w response "-stream" |}.

(** [messages.findLast(msg => msg.role === 'user')?.content || ''] *)
Definition lastUserMessage_of (messages : list ChatHistory) : string :=
  opt_or_else (content <$> findLast is_user messages) "".

Definition POST (w : World) (req : Request) : M Response :=
  try_catch
    (match req_json req with
     | Thrown parseError =>
         console_error "Failed to parse request body:";;
         json_error 400 "Invalid JSON in request body"
     | Returned body_falsy | Returned body_without_messages =>
         json_error 400 "Invalid request format. Expected messages array."
     | Returned (body_messages messages) =>
         let lastUserMessage := lastUserMessage_of messages in
         if unset (getenv w "LANGSMITH_API_KEY") then
           console_error "LangSmith API key not configured";;
           json_error 500 "LangSmith configuration error"
         else
           response ← pipeline w messages lastUserMessage;
           let settings := {| runName := type response +:+ "-completion";
                              exp_metadata := telemetry w response "-completion" |} in
           try_catch (call (GetSettings settings) (exporter_getSettings w settings))
                     (fun langsmithError => console_error "LangSmith logging error:");;
           let request := stream_request w messages response in
           try_catch
             (call (StreamText request) (streamText w request);;
              mret (DataStreamResponse request))
             (fun streamError =>
                console_error "Streaming error:";;
                mret (JsonResponse 500 "Failed to stream response"
                        (Some (message_or streamError "Unknown streaming error"))))
     end)
    (fun error =>
       console_error "API route error:";;
       json_error 500 (message_or error "Unknown error")).

(** ** Notions used in the statements *)

Definition is_completion (c : Call) : bool :=
  match c with Completion _ => true | _ => false end.
Definition is_embed (c : Call) : bool :=
  match c with Embed _ => true | _ => false end.
Definition is_query (c : Call) : bool :=
  match c with Query _ _ _ => true | _ => false end.

Definition count_calls (p : Call -> bool) (log : list Call) : nat :=
  length (List.filter p log).

(** The three labels that end the pipeline early. *)
Definition short_circuits (label : string) : bool :=
  String.eqb label "GREETING" || String.eqb label "INAPPROPRIATE"
  || String.eqb label "NOT_RELEVANT".

(** The answer text made of a completion content: [content || '']. *)
Definition answer_of (completion : outcome (option string)) : outcome string :=
  match completion with
  | Returned c => Returned (opt_or_else c "")
  | Thrown e => Thrown e
  end.

Definition map_outcome {A B} (f : A -> B) (o : outcome A) : outcome B :=
  match o with Returned a => Returned (f a) | Thrown e => Thrown e end.

(** The value [rewriteQuery] returns in a world: the cleaned completion,
    or the query when the completion throws. *)
Definition rewritten_in (w : World) (query : string)
    (chatHistory : list ChatHistory) : string :=
  match chat_completions_create w (rewrite_request query chatHistory) with
  | Returned c => cleaned_or query c
  | Thrown _ => query
  end.

(** The result of the relevant path for the documents found and the
    completion content. *)
Definition chat_result (lastUserMessage rewritten : string)
    (similarDocs : list Document) (answer : string) : PipelineResponse :=
  {| text := answer;
     type := "chat";
     metadata := {| input := lastUserMessage;
                    output := answer;
                    contextCount := length similarDocs;
                    rewrittenQuery := rewritten;
                    responseType := "chat" |} |}.

(** A world with another links route, all else the same. *)
Definition set_fetch_links (f : string -> string -> outcome LinksResponse)
    (w : World) : World :=
  {| env := env w;
     chat_completions_create := chat_completions_create w;
     embed := embed w;
     neon := neon w;
     vector_in := vector_in w;
     distance := distance w;
     float8_round := float8_round w;
     fetch_links := f;
     exporter_getSettings := exporter_getSettings w;
     streamText := streamText w |}.

(** A links route that answers: a response comes back and its body
    parses. *)
Definition answers (f : string -> string -> outcome LinksResponse) : Prop :=
  forall context query, exists st data,
    f context query = Returned {| status := st; json := Returned data |}.

(** A world with another environment, all else the same. *)
Definition set_env (e : gmap string string) (w : World) : World :=
  {| env := e;
     chat_completions_create := chat_completions_create w;
     embed := embed w;
     neon := neon w;
     vector_in := vector_in w;
     distance := distance w;
     float8_round := float8_round w;
     fetch_links := fetch_links w;
     exporter_getSettings := exporter_getSettings w;
     streamText := streamText w |}.

(** A world with other relations, all else the same. *)
Definition set_neon (n : outcome (gmap string (list Row))) (w : World) : World :=
  {| env := env w;
     chat_completions_create := chat_completions_create w;
     embed := embed w;
     neon := n;
     vector_in := vector_in w;
     distance := distance w;
     float8_round := float8_round w;
     fetch_links := fetch_links w;
     exporter_getSettings := exporter_getSettings w;
     streamText := streamText w |}.

(** The document made of a row and its distance. *)
Definition document_at (w : World) (c : Row * float8) : Document :=
  document_of (result_row w c).

(** Scores that do not increase from a document to a later one, as far as
    both are numbers. *)
Definition score_not_below : relation Document :=
  fun a b =>
    match similarity_score a, similarity_score b with
    | Real x, Real y => (y <= x)%Q
    | _, _ => True
    end.

(** [a >= b] as JavaScript compares two numbers: false when one is NaN. *)
Definition number_ge (a b : float8) : Prop :=
  match a, b with
  | Real x, Real y => (y <= x)%Q
  | _, _ => False
  end.

(** Rounding that keeps the order, as the rounding of double precision
    arithmetic does. *)
Definition monotone (round : Q -> Q) : Prop :=
  forall x y, (x <= y)%Q -> (round x <= round y)%Q.

(** The store computes a distance from every stored vector of the
    relation to the query vector. *)
Definition distances_defined (w : World) (queryEmbedding : list Q)
    (rows : list Row) : Prop :=
  forall r v, r ∈ rows -> vector r = Some v ->
    exists d, distance w v queryEmbedding = Returned d.

(** A world with another trace exporter, all else the same. *)
Definition set_exporter (f : ExporterSettings -> outcome unit) (w : World) : World :=
  {| env := env w;
     chat_completions_create := chat_completions_create w;
     embed := embed w;
     neon := neon w;
     vector_in := vector_in w;
     distance := distance w;
     float8_round := float8_round w;
     fetch_links := fetch_links w;
     exporter_getSettings := f;
     streamText := streamText w |}.

(** A world with another embedding provider, all else the same. *)
Definition set_embed (f : string -> outcome (list Q)) (w : World) : World :=
  {| env := env w;
     chat_completions_create := chat_completions_create w;
     embed := f;
     neon := neon w;
     vector_in := vector_in w;
     distance := distance w;
     float8_round := float8_round w;
     fetch_links := fetch_links w;
     exporter_getSettings := exporter_getSettings w;
     streamText := streamText w |}.

Definition is_fetch_links (c : Call) : bool :=
  match c with Fetch_links _ _ => true | _ => false end.
Definition is_getSettings (c : Call) : bool :=
  match c with GetSettings _ => true | _ => false end.
Definition is_streamText (c : Call) : bool :=
  match c with StreamText _ => true | _ => false end.

(** Order of the calls of a log: every call that [q] holds of has a call
    that [p] holds of before it. *)
Definition preceded_by (p q : Call -> bool) (log : list Call) : Prop :=
  forall before c after,
    log = before ++ c :: after -> q c = true ->
    exists c', c' ∈ before /\ p c' = true.

(** The same, read off the log from its first call on; [seen] tells that
    a call that [p] holds of has gone by. *)
Fixpoint precededb (p q : Call -> bool) (seen : bool) (log : list Call) : bool :=
  match log with
  | [] => true
  | c :: log' => (negb (q c) || seen) && precededb p q (p c || seen) log'
  end.

(** The request body passes the validation of the handler. *)
Definition carries_messages (req : Request) : Prop :=
  exists messages, req_json req = Returned (body_messages messages).

(** The settings handed to the trace exporter for a result. *)
Definition completion_settings (w : World) (response : PipelineResponse) : ExporterSettings :=
  {| runName := type response +:+ "-completion";
     exp_metadata := telemetry w response "-completion" |}.

(** The links call of a run that found the documents [docs]: none when
    there is no document. *)
Definition links_calls (docs : list Document) (rewritten : string) : list Call :=
  match docs with
  | [] => []
  | _ => [Fetch_links (contextTexts docs) rewritten]
  end.

(** A reader for the head of a quoted text: the character that
    [quote_char] wrote there and the text after it; nothing at a closing
    quote.  It is used to show that quoting loses nothing. *)
Definition hex_value (c : ascii) : option N :=
  let n := code c in
  if ((48 <=? n) && (n <=? 57))%N then Some (n - 48)%N
  else if ((97 <=? n) && (n <=? 102))%N then Some (n - 87)%N
  else None.

Definition unquote_char (s : string) : option (ascii * string) :=
  match s with
  | "" => None
  | String c r =>
      if (code c =? 34)%N then None
      else if (code c =? 92)%N then
        match r with
        | "" => None
        | String x r' =>
            if (code x =? 117)%N then
              match r' with
              | String _ (String _ (String h1 (String h2 r''))) =>
                  match hex_value h1, hex_value h2 with
                  | Some a, Some b => Some (ascii_of_N (16 * a + b), r'')
                  | _, _ => None
                  end
              | _ => None
              end
            else if (code x =? 98)%N then Some ("008"%char, r')
            else if (code x =? 116)%N then Some ("009"%char, r')
            else if (code x =? 110)%N then Some ("010"%char, r')
            else if (code x =? 102)%N then Some ("012"%char, r')
            else if (code x =? 114)%N then Some ("013"%char, r')
            else Some (x, r')
        end
      else Some (c, r)
  end.

(** The text of a message up to the opening quote of its content. *)
Definition message_head (r : Role) : string :=
  "{" +:+ dq +:+ "role" +:+ dq +:+ ":" +:+ dq +:+ role_name r +:+ dq +:+ ","
      +:+ dq +:+ "content" +:+ dq +:+ ":" +:+ dq.

(** What a document keeps of the row it is made of. *)
Definition made_of (doc : Document) (row : Row) : Prop :=
  doc_id doc = row_id row /\ doc_text doc = row_text row /\
  doc_title doc = row_title row /\ doc_url doc = row_url row /\
  doc_chunk_id doc = row_chunk_id row.

(** ** Sample worlds

    Concrete worlds on which the statements below are exercised.  A
    scripted model answers each stage by what the prompt starts with. *)

Record Script := {
  on_classify : outcome (option string);
  on_rewrite : outcome (option string);
  on_greeting : outcome (option string);
  on_not_relevant : outcome (option string);
  on_generate : outcome (option string)
}.

Definition last_content (r : ChatRequest) : string :=
  default "" (msg_content <$> last (req_messages r)).

Definition scripted (s : Script) (r : ChatRequest) : outcome (option string) :=
  let p := last_content r in
  if String.prefix "Given this question" p then on_classify s
  else if String.prefix "You are bent's woodworks" p then on_rewrite s
  else if String.prefix "The following message is a greeting" p then on_greeting s
  else if String.prefix "The following question is not" p then on_not_relevant s
  else on_generate s.

Definition sample_script (label : string) : Script :=
  {| on_classify := Returned (Some label);
     on_rewrite := Returned (Some "Rewritten query: best glue for end grain joints");
     on_greeting := Returned (Some "Hello! What are you building today?");
     on_not_relevant := Returned (Some "I can only help with woodworking.");
     on_generate := Returned (Some "### 1. **Glue** - Use a PVA glue.") |}.

Definition sample_rows : list Row :=
  [ {| row_id := "1"; row_text := "Plane with the grain."; row_title := "Hand planes";
       row_url := "https://example.com/planes"; row_chunk_id := "c1";
       vector := Some [0%Q; 1%Q] |};
    {| row_id := "2"; row_text := "No vector yet."; row_title := "Draft";
       row_url := "https://example.com/draft"; row_chunk_id := "c2";
       vector := None |};
    {| row_id := "3"; row_text := "Size the end grain first."; row_title := "Glue-ups";
       row_url := "https://example.com/glue"; row_chunk_id := "c3";
       vector := Some [1%Q; 0%Q] |} ].

(** A distance that computes: the sum of the squared differences. *)
Fixpoint squared_distance (a b : list Q) : Q :=
  match a, b with
  | x :: a', y :: b' => ((x - y) * (x - y) + squared_distance a' b')%Q
  | _, _ => 0%Q
  end.

Definition is_zero_vector (a : list Q) : bool :=
  forallb (fun x => Qeq_bool x 0) a.

(** A store in the manner of pgvector: a vector has at least one
    dimension, two vectors are compared when they have the same dimension,
    and the distance from or to a zero vector is NaN. *)
Definition sample_vector_in (a : list Q) : outcome unit :=
  match a with
  | [] => Thrown (Error "vector must have at least 1 dimension")
  | _ => Returned ()
  end.

Definition sample_distance (a b : list Q) : outcome float8 :=
  if negb (length a =? length b)%nat then
    Thrown (Error ("different vector dimensions " +:+ pretty (length a)
                     +:+ " and " +:+ pretty (length b)))
  else if is_zero_vector a || is_zero_vector b then Returned NaN
  else Returned (Real (squared_distance a b)).

Definition sample_links : LinksResponse :=
  {| status := 200;
     json := Returned {| videoReferences := true; relatedProducts := false |} |}.

Definition sample_world (s : Script) : World :=
  {| env := {[ "LANGSMITH_API_KEY" := "ls-key" ]};
     chat_completions_create := scripted s;
     embed := fun _ => Returned [1%Q; 0%Q];
     neon := Returned {[ "bents" := sample_rows ]};
     vector_in := sample_vector_in;
     distance := sample_distance;
     float8_round := fun x => x;
     fetch_links := fun _ _ => Returned sample_links;
     exporter_getSettings := fun _ => Returned ();
     streamText := fun _ => Returned () |}.

Definition sample_messages : list ChatHistory :=
  [ {| role := user; content := "What glue is best for end-grain joints?" |} ].

Definition sample_request : Request :=
  {| req_json := Returned (body_messages sample_messages) |}.

Definition sample_question : string := "What glue is best for end-grain joints?".

(** The rewriting call fails; the other stages answer. *)
Definition failing_rewrite_script : Script :=
  {| on_classify := Returned (Some "RELEVANT");
     on_rewrite := Thrown (Error "429 rate limit");
     on_greeting := on_greeting (sample_script "");
     on_not_relevant := on_not_relevant (sample_script "");
     on_generate := on_generate (sample_script "") |}.

Definition links_down : string -> string -> outcome LinksResponse :=
  fun _ _ => Thrown (Error "fetch failed").

Definition links_unavailable : string -> string -> outcome LinksResponse :=
  fun _ _ => Returned {| status := 503;
                         json := Returned {| videoReferences := false;
                                             relatedProducts := false |} |}.

Definition long_history : list ChatHistory :=
  [ {| role := user; content := "one" |};
    {| role := assistant; content := "two" |};
    {| role := user; content := "three" |};
    {| role := assistant; content := "four" |};
    {| role := user; content := "five" |};
    {| role := assistant; content := "six" |};
    {| role := user; content := "seven" |} ].

(** The classifier call fails. *)
Definition failing_classifier_script : Script :=
  {| on_classify := Thrown (Error "401 invalid api key");
     on_rewrite := on_rewrite (sample_script "");
     on_greeting := on_greeting (sample_script "");
     on_not_relevant := on_not_relevant (sample_script "");
     on_generate := on_generate (sample_script "") |}.

Definition embed_down : string -> outcome (list Q) :=
  fun _ => Thrown (Error "The operation was aborted due to timeout").

(** A relation with a row whose vector is the zero vector. *)
Definition rows_with_zero_vector : list Row :=
  [ {| row_id := "4"; row_text := "Blank page."; row_title := "Notes";
       row_url := "https://example.com/notes"; row_chunk_id := "c4";
       vector := Some [0%Q; 0%Q] |};
    {| row_id := "3"; row_text := "Size the end grain first."; row_title := "Glue-ups";
       row_url := "https://example.com/glue"; row_chunk_id := "c3";
       vector := Some [1%Q; 0%Q] |} ].

(** * Properties *)

(** ** Runs of the stages *)

Ltac run :=
  unfold mbind, M_bind, mret, M_ret, call, await, try_catch, throw,
    console_error, console_warn, json_error in *; simpl in *.

Lemma count_calls_app p l1 l2 :
  count_calls p (l1 ++ l2) = (count_calls p l1 + count_calls p l2)%nat.
Proof. unfold count_calls. by rewrite List.filter_app, length_app. Qed.

Section Pipeline.
Context (w : World) (messages : list ChatHistory) (lastUserMessage : string).

(** The pipeline after the classifier has answered, branch by branch. *)
Lemma pipeline_classifier_throws log e :
  chat_completions_create w (classify_request lastUserMessage messages) = Thrown e ->
  pipeline w messages lastUserMessage log = (Thrown e, log ++ [Completion (classify_request lastUserMessage messages)]).
Proof. intros H. unfold pipeline, checkRelevance. run. by rewrite H. Qed.

Lemma pipeline_greeting log c :
  chat_completions_create w (classify_request lastUserMessage messages) = Returned c ->
  relevance_of c = "GREETING" ->
  pipeline w messages lastUserMessage log =
    (map_outcome (short_circuit "greeting" lastUserMessage)
       (answer_of (chat_completions_create w (greeting_request lastUserMessage))),
     log ++ [Completion (classify_request lastUserMessage messages); Completion (greeting_request lastUserMessage)]).
Proof.
  intros H L. unfold pipeline, checkRelevance. run.
  rewrite H, L. simpl. rewrite <- app_assoc. simpl.
  by destruct (chat_completions_create w (greeting_request lastUserMessage)).
Qed.

Lemma pipeline_inappropriate log c :
  chat_completions_create w (classify_request lastUserMessage messages) = Returned c ->
  relevance_of c = "INAPPROPRIATE" ->
  pipeline w messages lastUserMessage log =
    (Returned (short_circuit "inappropriate" lastUserMessage inappropriateAnswer),
     log ++ [Completion (classify_request lastUserMessage messages)]).
Proof.
  intros H L. unfold pipeline, checkRelevance. run.
  by rewrite H, L.
Qed.

Lemma pipeline_not_relevant log c :
  chat_completions_create w (classify_request lastUserMessage messages) = Returned c ->
  relevance_of c = "NOT_RELEVANT" ->
  pipeline w messages lastUserMessage log =
    (map_outcome (short_circuit "not-relevant" lastUserMessage)
       (answer_of (chat_completions_create w (not_relevant_request lastUserMessage))),
     log ++ [Completion (classify_request lastUserMessage messages); Completion (not_relevant_request lastUserMessage)]).
Proof.
  intros H L. unfold pipeline, checkRelevance. run.
  rewrite H, L. simpl. rewrite <- app_assoc. simpl.
  by destruct (chat_completions_create w (not_relevant_request lastUserMessage)).
Qed.

Lemma pipeline_otherwise log c :
  chat_completions_create w (classify_request lastUserMessage messages) = Returned c ->
  short_circuits (relevance_of c) = false ->
  pipeline w messages lastUserMessage log =
    relevant_path w messages lastUserMessage (log ++ [Completion (classify_request lastUserMessage messages)]).
Proof.
  intros H L. unfold pipeline, checkRelevance. run.
  rewrite H. unfold short_circuits in L.
  destruct (String.eqb (relevance_of c) "GREETING"); [done|].
  destruct (String.eqb (relevance_of c) "INAPPROPRIATE"); [done|].
  by destruct (String.eqb (relevance_of c) "NOT_RELEVANT").
Qed.

Lemma short_circuits_cases label :
  short_circuits label = true ->
  label = "GREETING" \/ label = "INAPPROPRIATE" \/ label = "NOT_RELEVANT".
Proof.
  unfold short_circuits. intros H.
  destruct (String.eqb_spec label "GREETING"); [by left|].
  destruct (String.eqb_spec label "INAPPROPRIATE"); [by right; left|].
  destruct (String.eqb_spec label "NOT_RELEVANT"); [by right; right|done].
Qed.
End Pipeline.

Lemma rewriteQuery_run w query chatHistory log :
  rewriteQuery w query chatHistory log =
    (Returned match chat_completions_create w (rewrite_request query chatHistory) with
              | Returned c => cleaned_or query c
              | Thrown _ => query
              end,
     log ++ [Completion (rewrite_request query chatHistory)]).
Proof.
  unfold rewriteQuery. run.
  by destruct (chat_completions_create w (rewrite_request query chatHistory)).
Qed.

Lemma relevant_path_result w messages q log r log' :
  relevant_path w messages q log = (Returned r, log') ->
  type r = "chat" /\ output (metadata r) = text r /\ responseType (metadata r) = "chat".
Proof.
  unfold relevant_path, searchNeonDb, links_request, client_query. run.
  rewrite rewriteQuery_run.
  repeat match goal with
         | |- context [match ?x with _ => _ end] => destruct x eqn:?; simpl; try discriminate
         end.
  all: intros [= <- <-]; done.
Qed.

Lemma links_request_run w context rewritten log :
  links_request w context rewritten log =
    if truthy context then
      (match fetch_links w context rewritten with
       | Returned r => map_outcome (fun _ => ()) (json r)
       | Thrown e => Thrown e
       end, log ++ [Fetch_links context rewritten])
    else (Returned (), log).
Proof.
  unfold links_request. destruct (truthy context); [|done]. run.
  destruct (fetch_links w context rewritten) as [r|e]; [|done].
  by destruct (json r).
Qed.

(** The relevant path, stage by stage. *)
Lemma relevant_path_run w messages q log :
  relevant_path w messages q log =
    let rewritten := rewritten_in w q messages in
    let log1 := log ++ [Completion (rewrite_request q messages); Embed rewritten] in
    match embed w rewritten with
    | Thrown e => (Thrown e, log1)
    | Returned embedding =>
        match client_query w embedding "bents" 10 with
        | Thrown e =>
            (Thrown e,
             log1 ++ [Query embedding "bents" 10; Console_error "[DB Search] Error:"])
        | Returned rows =>
            let similarDocs := document_of <$> rows in
            let context := contextTexts similarDocs in
            match links_request w context rewritten
                    (log1 ++ [Query embedding "bents" 10]) with
            | (Thrown e, log3) => (Thrown e, log3)
            | (Returned _, log3) =>
                (map_outcome (chat_result q rewritten similarDocs)
                   (answer_of (chat_completions_create w
                                 (generation_request messages context q))),
                 log3 ++ [Completion (generation_request messages context q)])
            end
        end
    end.
Proof.
  unfold relevant_path, searchNeonDb. run. rewrite rewriteQuery_run.
  fold (rewritten_in w q messages). rewrite <- !app_assoc. simpl.
  destruct (embed w (rewritten_in w q messages)) as [embedding|e]; [|done].
  destruct (client_query w embedding "bents" 10) as [rows|e];
    simpl; rewrite <- ?app_assoc; simpl; [|done].
  destruct (links_request w _ _ _) as [[[]|e] log3]; [|done].
  by destruct (chat_completions_create w (generation_request _ _ _)).
Qed.

Lemma replace_unfold pat repl s :
  replace pat repl s =
    if String.prefix pat s then repl +:+ skip (String.length pat) s
    else match s with
         | "" => ""
         | String c s' => String c (replace pat repl s')
         end.
Proof. by destruct s. Qed.

Lemma prefix_append pat rest : String.prefix pat (pat +:+ rest) = true.
Proof.
  induction pat as [|c pat IH]; simpl; [by destruct rest|].
  destruct (Ascii.ascii_dec c c); [exact IH|done].
Qed.

Lemma skip_append pat rest : skip (String.length pat) (pat +:+ rest) = rest.
Proof. induction pat; simpl; auto. Qed.

(** A label at the head of the text is taken off. *)
Lemma replace_leading pat rest : replace pat "" (pat +:+ rest) = rest.
Proof. by rewrite replace_unfold, prefix_append, skip_append. Qed.

Lemma cleaned_or_leading q rest :
  cleaned_or q (Some ("Rewritten query:" +:+ rest)) = or_else (trim rest) q.
Proof.
  unfold cleaned_or, fmap, option_fmap, option_map, opt_or_else.
  by rewrite replace_leading.
Qed.

Lemma contextTexts_cons d d' ds :
  contextTexts (d :: d' :: ds) =
    context_block d +:+ (nl +:+ nl) +:+ contextTexts (d' :: ds).
Proof. reflexivity. Qed.

Lemma links_request_answers f w context rewritten log :
  answers f ->
  links_request (set_fetch_links f w) context rewritten log =
    (Returned (), log ++ if truthy context then [Fetch_links context rewritten] else []).
Proof.
  intros Hf. rewrite links_request_run. simpl.
  destruct (truthy context); [|by rewrite app_nil_r].
  by destruct (Hf context rewritten) as (st & data & ->).
Qed.

Lemma relevant_path_links f1 f2 w messages q log :
  answers f1 -> answers f2 ->
  relevant_path (set_fetch_links f1 w) messages q log =
  relevant_path (set_fetch_links f2 w) messages q log.
Proof.
  intros H1 H2. rewrite !relevant_path_run.
  change (rewritten_in (set_fetch_links f1 w) q messages)
    with (rewritten_in w q messages).
  change (rewritten_in (set_fetch_links f2 w) q messages)
    with (rewritten_in w q messages).
  change (embed (set_fetch_links f1 w)) with (embed w).
  change (embed (set_fetch_links f2 w)) with (embed w).
  cbv zeta.
  destruct (embed w (rewritten_in w q messages)) as [embedding|e]; [|done].
  change (client_query (set_fetch_links f1 w) embedding "bents" 10)
    with (client_query w embedding "bents" 10).
  change (client_query (set_fetch_links f2 w) embedding "bents" 10)
    with (client_query w embedding "bents" 10).
  destruct (client_query w embedding "bents" 10) as [rows|e]; [|done].
  by rewrite !links_request_answers.
Qed.

Lemma pipeline_links f1 f2 w messages q log :
  answers f1 -> answers f2 ->
  pipeline (set_fetch_links f1 w) messages q log =
  pipeline (set_fetch_links f2 w) messages q log.
Proof.
  intros H1 H2. unfold pipeline, checkRelevance. run.
  destruct (chat_completions_create w (classify_request q messages)) as [c|e]; [|done].
  repeat (destruct (String.eqb (relevance_of c) _); [done|]).
  by apply relevant_path_links.
Qed.

Lemma relevant_path_log w messages q log :
  exists rest, (relevant_path w messages q log).2 = log ++ rest.
Proof.
  rewrite relevant_path_run. simpl.
  destruct (embed w _) as [embedding|e]; [|by eexists].
  destruct (client_query w embedding "bents" 10) as [rows|e];
    [|simpl; rewrite <- app_assoc; by eexists].
  rewrite links_request_run.
  destruct (truthy _); simpl.
  - destruct (fetch_links w _ _) as [r|e]; simpl.
    + destruct (json r); simpl; rewrite <- ?app_assoc; by eexists.
    + rewrite <- ?app_assoc; by eexists.
  - rewrite <- ?app_assoc; by eexists.
Qed.

(** Every run of the pipeline starts with the classification call. *)
Lemma pipeline_log w messages q log :
  exists rest,
    (pipeline w messages q log).2 =
      log ++ Completion (classify_request q messages) :: rest.
Proof.
  destruct (chat_completions_create w (classify_request q messages)) as [c|e] eqn:Hc;
    [|rewrite (pipeline_classifier_throws _ _ _ _ _ Hc); by eexists].
  destruct (short_circuits (relevance_of c)) eqn:Hs.
  - destruct (short_circuits_cases _ Hs) as [L | [L | L]].
    + rewrite (pipeline_greeting _ _ _ _ _ Hc L). by eexists.
    + rewrite (pipeline_inappropriate _ _ _ _ _ Hc L). by eexists.
    + rewrite (pipeline_not_relevant _ _ _ _ _ Hc L). by eexists.
  - rewrite (pipeline_otherwise _ _ _ _ _ Hc Hs).
    destruct (relevant_path_log w messages q
                (log ++ [Completion (classify_request q messages)])) as [rest ->].
    rewrite <- app_assoc. by eexists.
Qed.

(** *** The history window of the prompts *)

Lemma slice_last_suffix {A} n (l : list A) : slice_last n l `suffix_of` l.
Proof. apply suffix_drop. Qed.

(** Appending to a text whose head is known. *)
Ltac app_simpl :=
  cbv beta iota delta [String.append dq bs nl]; fold String.append.
Ltac app_simpl_in H :=
  cbv beta iota delta [String.append dq bs nl] in H; fold String.append in H.

Lemma append_assoc (a b c : string) : (a +:+ b) +:+ c = a +:+ (b +:+ c).
Proof. induction a as [|x a IH]; [done|]. app_simpl. by f_equal. Qed.

Lemma unquote_quote_char c r : unquote_char (quote_char c +:+ r) = Some (c, r).
Proof. by destruct c as [[] [] [] [] [] [] [] []]. Qed.

Lemma quote_chars_inj s s' r r' :
  quote_chars s +:+ dq +:+ r = quote_chars s' +:+ dq +:+ r' -> s = s' /\ r = r'.
Proof.
  revert s'. induction s as [|c s IH]; intros [|c' s']; simpl.
  - app_simpl. by intros [= ->].
  - rewrite append_assoc. intros H. apply (f_equal unquote_char) in H.
    by rewrite unquote_quote_char in H.
  - rewrite append_assoc. intros H. apply (f_equal unquote_char) in H.
    by rewrite unquote_quote_char in H.
  - rewrite !append_assoc. intros H. apply (f_equal unquote_char) in H.
    rewrite !unquote_quote_char in H. injection H as -> H.
    by destruct (IH _ H) as [-> ->].
Qed.

Lemma stringify_message_app m r :
  stringify_message m +:+ r =
    message_head (role m) +:+ quote_chars (content m) +:+ dq +:+ "}" +:+ r.
Proof.
  unfold stringify_message, quote, message_head.
  change (quote_chars "role") with "role".
  change (quote_chars "content") with "content".
  destruct (role m).
  - change (quote_chars (role_name user)) with "user".
    by rewrite !append_assoc.
  - change (quote_chars (role_name assistant)) with "assistant".
    by rewrite !append_assoc.
Qed.

(** A message is read back from the head of a text. *)
Lemma stringify_message_inj m m' r r' :
  stringify_message m +:+ r = stringify_message m' +:+ r' -> m = m' /\ r = r'.
Proof.
  rewrite !stringify_message_app. destruct m as [ro c], m' as [ro' c'].
  unfold message_head. simpl.
  destruct ro, ro'; simpl; app_simpl; intros H; try discriminate H.
  - repeat (injection H as H).
    apply quote_chars_inj in H as [-> H]. app_simpl_in H. by injection H as ->.
  - repeat (injection H as H).
    apply quote_chars_inj in H as [-> H]. app_simpl_in H. by injection H as ->.
Qed.

Lemma join_cons_cons sep x y l :
  join sep (x :: y :: l) = x +:+ sep +:+ join sep (y :: l).
Proof. reflexivity. Qed.

Lemma stringify_message_head m r : exists t, stringify_message m +:+ r = String "{" t.
Proof.
  rewrite stringify_message_app. unfold message_head. app_simpl. by eexists.
Qed.

Lemma items_inj (h h' : list ChatHistory) r r' :
  h <> [] -> h' <> [] ->
  join "," (stringify_message <$> h) +:+ "]" +:+ r =
    join "," (stringify_message <$> h') +:+ "]" +:+ r' ->
  h = h' /\ r = r'.
Proof.
  revert h'. induction h as [|m t IH]; [done|]. intros [|m' t'] _ Hne; [done|].
  destruct t as [|m2 t], t' as [|m2' t']; rewrite ?fmap_cons, ?join_cons_cons;
    rewrite ?append_assoc; intros H; apply stringify_message_inj in H as [-> H];
    app_simpl_in H; try discriminate H.
  - by injection H as ->.
  - injection H as H.
    destruct (IH (m2' :: t') ltac:(done) ltac:(done)) as [Ht ->]; [exact H|].
    by injection Ht as -> ->.
Qed.

Lemma items_head (m : ChatHistory) (t : list ChatHistory) r :
  exists x, join "," (stringify_message <$> m :: t) +:+ r = String "{" x.
Proof.
  destruct t as [|m2 t]; rewrite ?fmap_cons, ?join_cons_cons, ?append_assoc;
    apply stringify_message_head.
Qed.

(** The JSON text of a history is read back from the head of a text. *)
Lemma JSON_stringify_inj (h h' : list ChatHistory) r r' :
  JSON_stringify h +:+ r = JSON_stringify h' +:+ r' -> h = h' /\ r = r'.
Proof.
  unfold JSON_stringify. rewrite !append_assoc. intros H.
  apply (inj (String.app "[")) in H.
  destruct h as [|m t], h' as [|m' t'].
  - app_simpl_in H. by injection H as ->.
  - destruct (items_head m' t' ("]" +:+ r')) as [x Hx]. rewrite Hx in H.
    app_simpl_in H. discriminate H.
  - destruct (items_head m t ("]" +:+ r)) as [x Hx]. rewrite Hx in H.
    app_simpl_in H. discriminate H.
  - by apply items_inj.
Qed.

(** *** The vector search *)

Lemma float8_le_trans x y z : float8_le x y -> float8_le y z -> float8_le x z.
Proof.
  destruct x as [|p], y as [|q], z as [|r]; simpl; try done. apply Qle_trans.
Qed.

Lemma float8_le_total x y : float8_le x y \/ float8_le y x.
Proof.
  destruct x as [|p], y as [|q]; simpl; auto.
  destruct (Qlt_le_dec p q); [left; by apply Qlt_le_weak | by right].
Qed.

#[global] Instance nearer_transitive : Transitive nearer.
Proof. intros a b c. apply float8_le_trans. Qed.

#[global] Instance nearer_total : Total nearer.
Proof. intros a b. apply float8_le_total. Qed.

Lemma StronglySorted_take {A} (R : relation A) n l :
  StronglySorted R l -> StronglySorted R (take n l).
Proof.
  intros H. revert n. induction H as [|x l Hl IH Hx]; intros [|n]; simpl;
    constructor; [apply IH | by apply Forall_take].
Qed.

(** Of two rows whose distances are numbers, the nearer has the score that
    is not smaller, when rounding keeps the order. *)
Lemma nearer_score w a b :
  monotone (float8_round w) ->
  nearer a b -> score_not_below (document_at w a) (document_at w b).
Proof.
  intros Hround. unfold nearer, score_not_below, document_at. simpl.
  destruct (a.2) as [|p], (b.2) as [|q]; simpl; try done.
  intros H. apply Hround. unfold Qminus. apply Qplus_le_r. by apply Qopp_le_compat.
Qed.

Lemma candidates_elem r v (rows : list Row) :
  (r, v) ∈ candidates rows <-> r ∈ rows /\ vector r = Some v.
Proof.
  unfold candidates. rewrite list_elem_of_omap. split.
  - intros (r' & Hin & H). destruct (vector r') as [v'|] eqn:E; simpl in H; [|done].
    by injection H as -> ->.
  - intros [Hin Hv]. exists r. split; [done|]. by rewrite Hv.
Qed.

Lemma candidates_none (rows : list Row) :
  Forall (fun r => vector r = None) rows -> candidates rows = [].
Proof.
  induction 1 as [|r rows Hr _ IH]; [done|].
  unfold candidates in *. simpl. by rewrite Hr.
Qed.

(** The distances of a query that the store computes: one for every
    candidate, in their order. *)
Lemma distances_spec operator queryEmbedding cs scored :
  distances operator queryEmbedding cs = Returned scored ->
  Forall2 (fun c s => s.1 = c.1 /\ operator c.2 queryEmbedding = Returned s.2)
    cs scored.
Proof.
  revert scored. induction cs as [|[r v] cs IH]; simpl; intros scored.
  - intros [= <-]. constructor.
  - destruct (operator v queryEmbedding) as [d|] eqn:Hd; [|done].
    destruct (distances operator queryEmbedding cs) as [ds|]; [|done].
    intros [= <-]. constructor; [done | by apply IH].
Qed.

Lemma distances_returns operator queryEmbedding cs :
  (forall r v, (r, v) ∈ cs -> exists d, operator v queryEmbedding = Returned d) ->
  exists scored, distances operator queryEmbedding cs = Returned scored.
Proof.
  induction cs as [|[r v] cs IH]; simpl; intros H; [by eexists|].
  destruct (H r v) as [d ->]; [by left|].
  destruct IH as [ds ->]; [|by eexists].
  intros r' v' Hin. apply (H r' v'). by right.
Qed.

Lemma distances_throws operator queryEmbedding cs r v e :
  (r, v) ∈ cs -> operator v queryEmbedding = Thrown e ->
  exists e', distances operator queryEmbedding cs = Thrown e'.
Proof.
  induction cs as [|[r' v'] cs IH]; simpl; intros Hin He; [by inv Hin|].
  destruct (operator v' queryEmbedding) as [d|e1] eqn:Hd; [|by eexists].
  apply elem_of_cons in Hin as [[= <- <-] | Hin]; [congruence|].
  destruct (IH Hin He) as [e' ->]. by eexists.
Qed.

Lemma distances_defined_returns w queryEmbedding rows :
  distances_defined w queryEmbedding rows ->
  exists scored,
    distances (distance w) queryEmbedding (candidates rows) = Returned scored.
Proof.
  intros H. apply distances_returns. intros r v Hin.
  apply candidates_elem in Hin as [Hin Hv]. by apply (H r v).
Qed.

Lemma merge_sort_nearer_sorted scored : StronglySorted nearer (merge_sort nearer scored).
Proof. apply StronglySorted_merge_sort; apply _. Qed.

Lemma select_sorted topK scored :
  StronglySorted nearer (take topK (merge_sort nearer scored)).
Proof. apply StronglySorted_take, merge_sort_nearer_sorted. Qed.

(** The search on a reachable relation, by the answer of the store. *)
Lemma searchNeonDb_run w queryEmbedding tableName topK relations rows log :
  neon w = Returned relations ->
  relations !! tableName = Some rows ->
  searchNeonDb w queryEmbedding tableName topK log =
    match vector_in w queryEmbedding with
    | Thrown e =>
        (Thrown e,
         log ++ [Query queryEmbedding tableName topK; Console_error "[DB Search] Error:"])
    | Returned _ =>
        match distances (distance w) queryEmbedding (candidates rows) with
        | Thrown e =>
            (Thrown e,
             log ++ [Query queryEmbedding tableName topK;
                     Console_error "[DB Search] Error:"])
        | Returned scored =>
            (Returned (document_at w <$> take topK (merge_sort nearer scored)),
             log ++ [Query queryEmbedding tableName topK])
        end
    end.
Proof.
  intros Hn Hr. unfold searchNeonDb, client_query, select. run. rewrite Hn, Hr.
  destruct (vector_in w queryEmbedding); simpl; [|by rewrite <- app_assoc].
  destruct (distances _ _ _); simpl; [|by rewrite <- app_assoc].
  unfold document_at. by rewrite <- list_fmap_compose.
Qed.

(** ** The claims *)

(** C1 (the code departs from it).  Only a missing or blank classifier
    answer is mapped to NotRelevant.  Any other answer outside the four
    tokens is kept: [checkRelevance] returns the trimmed, upper-cased text
    as it is, and [pipeline] sends every label that is not one of the
    three short-circuit tokens down the relevant path.  With the answer
    [maybe] the run rewrites the query, computes an embedding, searches
    the relation and returns a result of type chat. *)
Theorem C1_unrecognised_label_takes_relevant_path :
  relevance_of None = "NOT_RELEVANT" /\
  relevance_of (Some "  ") = "NOT_RELEVANT" /\
  relevance_of (Some "maybe") = "MAYBE" /\
  short_circuits "MAYBE" = false /\
  exists r log,
    pipeline (sample_world (sample_script "maybe")) sample_messages
      "What glue is best for end-grain joints?" [] = (Returned r, log) /\
    type r = "chat" /\
    count_calls is_embed log = 1%nat /\
    count_calls is_query log = 1%nat /\
    count_calls is_completion log = 3%nat.
Proof.
  do 4 (split; [reflexivity|]).
  eexists _, _. split; [vm_compute; reflexivity|].
  repeat split; reflexivity.
Qed.

(** C2 as it stands does not hold: when the links call throws, the
    relevant path throws with it, no result is made and the caller gets a
    500 response instead of the answer. *)
Lemma C2_links_failure_prevents_answer :
  let up := sample_world (sample_script "relevant") in
  let down := set_fetch_links links_down up in
  (exists r, (pipeline up sample_messages sample_question []).1 = Returned r /\
             text r = "### 1. **Glue** - Use a PVA glue.") /\
  (pipeline down sample_messages sample_question []).1 = Thrown (Error "fetch failed") /\
  (exists s, (POST up sample_request []).1 = Returned (DataStreamResponse s)) /\
  (POST down sample_request []).1 = Returned (JsonResponse 500 "fetch failed" None).
Proof.
  repeat split.
  - eexists. split; vm_compute; reflexivity.
  - eexists. vm_compute. reflexivity.
Qed.

(** C2, amended.  The answer of the links route is never used: for every
    request, whatever response the links call returns (any status, any
    body that parses), the run of the pipeline (its result and its calls)
    and the response of the handler are the same. *)
Theorem C2_links_answer_unused f1 f2 w messages q req log :
  answers f1 -> answers f2 ->
  pipeline (set_fetch_links f1 w) messages q log =
    pipeline (set_fetch_links f2 w) messages q log /\
  POST (set_fetch_links f1 w) req log = POST (set_fetch_links f2 w) req log.
Proof.
  intros H1 H2. split; [by apply pipeline_links|].
  unfold POST. run. unfold getenv. simpl.
  destruct (req_json req) as [[| |ms]|e]; try done.
  destruct (unset _); [done|].
  by rewrite (pipeline_links f1 f2 w ms _ log H1 H2).
Qed.

Lemma C2_links_answer_unused_witness :
  pipeline (set_fetch_links links_unavailable (sample_world (sample_script "relevant")))
      sample_messages sample_question [] =
    pipeline (set_fetch_links (fun _ _ => Returned sample_links)
                (sample_world (sample_script "relevant")))
      sample_messages sample_question [] /\
  POST (set_fetch_links links_unavailable (sample_world (sample_script "relevant")))
      sample_request [] =
    POST (set_fetch_links (fun _ _ => Returned sample_links)
            (sample_world (sample_script "relevant")))
      sample_request [].
Proof.
  apply (C2_links_answer_unused links_unavailable (fun _ _ => Returned sample_links)).
  - intros context query. eexists _, _. reflexivity.
  - intros context query. eexists _, _. reflexivity.
Defined.

(** C3 as it stands does not hold: without the LangSmith key the handler
    answers a question with a 500 response, where the same request with
    the key set is answered with the stream. *)
Lemma C3_missing_key_fails_request :
  let w := sample_world (sample_script "relevant") in
  (exists s, (POST w sample_request []).1 = Returned (DataStreamResponse s)) /\
  POST (set_env ∅ w) sample_request [] =
    (Returned (JsonResponse 500 "LangSmith configuration error" None),
     [Console_error "LangSmith API key not configured"]).
Proof.
  split; [eexists|]; vm_compute; reflexivity.
Qed.

(** C3, amended.  When the LangSmith key is absent, loading the module
    logs one warning, and every request that carries a messages array is
    answered with the 500 response [LangSmith configuration error], with
    no call made but the error line.  An absent project name or end point
    is replaced by its default. *)
Theorem C3_missing_key_is_refused w messages log :
  unset (getenv w "LANGSMITH_API_KEY") = true ->
  module_init w log =
    (Returned (),
     log ++ [Console_warn "LANGSMITH_API_KEY not found in environment variables"]) /\
  POST w {| req_json := Returned (body_messages messages) |} log =
    (Returned (JsonResponse 500 "LangSmith configuration error" None),
     log ++ [Console_error "LangSmith API key not configured"]) /\
  (getenv w "LANGSMITH_PROJECT" = None ->
     projectName (getLangSmithMetadata w) = "default") /\
  (getenv w "LANGSMITH_ENDPOINT" = None ->
     endpoint (getLangSmithMetadata w) = "https://api.smith.langchain.com").
Proof.
  intros Hkey. repeat split.
  - unfold module_init. by rewrite Hkey.
  - unfold POST. run. by rewrite Hkey.
  - unfold getLangSmithMetadata. simpl. by intros ->.
  - unfold getLangSmithMetadata. simpl. by intros ->.
Qed.

Lemma C3_missing_key_is_refused_witness :
  let w := set_env ∅ (sample_world (sample_script "relevant")) in
  module_init w [] =
    (Returned (),
     [] ++ [Console_warn "LANGSMITH_API_KEY not found in environment variables"]) /\
  POST w {| req_json := Returned (body_messages sample_messages) |} [] =
    (Returned (JsonResponse 500 "LangSmith configuration error" None),
     [] ++ [Console_error "LangSmith API key not configured"]) /\
  projectName (getLangSmithMetadata w) = "default" /\
  endpoint (getLangSmithMetadata w) = "https://api.smith.langchain.com".
Proof.
  intros w.
  destruct (C3_missing_key_is_refused w sample_messages [])
    as (Hinit & Hpost & Hproject & Hendpoint); [vm_compute; reflexivity|].
  split; [exact Hinit|]. split; [exact Hpost|]. split.
  - apply Hproject. vm_compute. reflexivity.
  - apply Hendpoint. vm_compute. reflexivity.
Defined.

(** C4 as it stands does not hold: an empty messages array, whose query
    is the empty string, is not refused; the classifier is called with the
    empty query and the request is answered with the stream. *)
Lemma C4_empty_messages_reach_classifier :
  lastUserMessage_of [] = "" /\
  exists s rest,
    POST (sample_world (sample_script "greeting"))
      {| req_json := Returned (body_messages []) |} [] =
    (Returned (DataStreamResponse s), Completion (classify_request "" []) :: rest).
Proof.
  split; [reflexivity|]. eexists _, _. vm_compute. reflexivity.
Qed.

(** C4, amended.  A request whose body does not parse, is falsy or has no
    messages array is answered with a 400 response and no stage is called.
    A request that carries a messages array is not refused for being
    empty or for an empty query: once the LangSmith key is set the
    classifier is called with the last user message, the empty string when
    there is none. *)
Theorem C4_validation w req log :
  (forall e, req_json req = Thrown e ->
     POST w req log =
       (Returned (JsonResponse 400 "Invalid JSON in request body" None),
        log ++ [Console_error "Failed to parse request body:"])) /\
  (req_json req = Returned body_falsy \/
   req_json req = Returned body_without_messages ->
     POST w req log =
       (Returned (JsonResponse 400
                    "Invalid request format. Expected messages array." None),
        log)) /\
  (forall messages,
     req_json req = Returned (body_messages messages) ->
     unset (getenv w "LANGSMITH_API_KEY") = false ->
     exists rest,
       (POST w req log).2 =
         log ++ Completion (classify_request (lastUserMessage_of messages) messages)
             :: rest) /\
  (forall messages,
     findLast is_user messages = None -> lastUserMessage_of messages = "").
Proof.
  repeat split.
  - intros e He. unfold POST. run. by rewrite He.
  - intros [H | H]; unfold POST; run; by rewrite H.
  - intros messages Hm Hkey. unfold POST. run. rewrite Hm, Hkey.
    destruct (pipeline_log w messages (lastUserMessage_of messages) log) as [rest Hlog].
    destruct (pipeline w messages (lastUserMessage_of messages) log) as [[r|e] log1];
      simpl in Hlog; subst log1.
    + destruct (exporter_getSettings w _); simpl;
        destruct (streamText w _); simpl;
        rewrite <- ?app_assoc; simpl; by eexists.
    + simpl. rewrite <- ?app_assoc. simpl. by eexists.
  - intros messages H. unfold lastUserMessage_of. by rewrite H.
Qed.

Lemma C4_validation_witness :
  let w := sample_world (sample_script "greeting") in
  POST w {| req_json := Thrown (Error "Unexpected token") |} [] =
    (Returned (JsonResponse 400 "Invalid JSON in request body" None),
     [] ++ [Console_error "Failed to parse request body:"]) /\
  POST w {| req_json := Returned body_without_messages |} [] =
    (Returned (JsonResponse 400
                 "Invalid request format. Expected messages array." None),
     []) /\
  (exists rest,
     (POST w {| req_json := Returned (body_messages []) |} []).2 =
       [] ++ Completion (classify_request (lastUserMessage_of []) []) :: rest) /\
  lastUserMessage_of [] = "".
Proof.
  intros w.
  destruct (C4_validation w {| req_json := Thrown (Error "Unexpected token") |} [])
    as (Hparse & _).
  destruct (C4_validation w {| req_json := Returned body_without_messages |} [])
    as (_ & Hshape & _).
  destruct (C4_validation w {| req_json := Returned (body_messages []) |} [])
    as (_ & _ & Hreach & Hquery).
  split; [|split; [|split]].
  - apply (Hparse (Error "Unexpected token")). reflexivity.
  - apply Hshape. right. reflexivity.
  - apply (Hreach []); [reflexivity | vm_compute; reflexivity].
  - apply Hquery. reflexivity.
Defined.

(** C5 as it stands does not hold for the rewriting prompt: with seven
    messages of history it carries all seven, and differs from the prompt
    made of the last five. *)
Lemma C5_rewrite_prompt_has_whole_history :
  let oldest := stringify_message {| role := user; content := "one" |} in
  length long_history = 7%nat /\
  rewritePrompt sample_question long_history <>
    rewritePrompt sample_question (slice_last 5 long_history) /\
  String.index 0 oldest (rewritePrompt sample_question long_history) = Some 322%nat /\
  String.index 0 oldest (relevancePrompt sample_question long_history) = None.
Proof.
  split; [reflexivity|]. split; [|split].
  - intros H. apply (f_equal String.length) in H. vm_compute in H. discriminate H.
  - vm_compute. reflexivity.
  - vm_compute. reflexivity.
Qed.

(** C5, amended.  The classification prompt and the generation prompt
    are made of the last five messages of the history and of nothing
    else of it: for one question (and one context) the prompts of two
    histories are the same exactly when the two histories have the same
    last five messages, which are the whole history when it has at most
    five messages and its five most recent ones otherwise.  The rewriting
    prompt is made of the whole history: the rewriting prompts of two
    histories are the same exactly when the histories are the same, so the
    prompt of a history of more than five messages is not the prompt of
    its last five. *)
Theorem C5_history_window q context (h h' : list ChatHistory) :
  (relevancePrompt q h = relevancePrompt q h'
     <-> slice_last 5 h = slice_last 5 h') /\
  (generationPrompt h context q = generationPrompt h' context q
     <-> slice_last 5 h = slice_last 5 h') /\
  (rewritePrompt q h = rewritePrompt q h' <-> h = h') /\
  length (slice_last 5 h) = Nat.min 5 (length h) /\
  slice_last 5 h `suffix_of` h /\
  (5 < length h -> rewritePrompt q h <> rewritePrompt q (slice_last 5 h)).
Proof.
  assert (Hrw : forall k k', rewritePrompt q k = rewritePrompt q k' -> k = k').
  { intros k k' H. unfold rewritePrompt in H.
    do 3 apply (inj (String.app _)) in H. by apply JSON_stringify_inj in H as [? _]. }
  split; [|split; [|split; [|split; [|split]]]].
  - split.
    + unfold relevancePrompt. intros H.
      apply (inj (String.app _)) in H. by apply JSON_stringify_inj in H as [? _].
    + unfold relevancePrompt. by intros ->.
  - split.
    + unfold generationPrompt. intros H.
      do 2 apply (inj (String.app _)) in H. by apply JSON_stringify_inj in H as [? _].
    + unfold generationPrompt. by intros ->.
  - split; [apply Hrw | by intros ->].
  - unfold slice_last. rewrite length_drop. lia.
  - apply slice_last_suffix.
  - intros Hlen H. apply Hrw in H. apply (f_equal length) in H.
    unfold slice_last in H. rewrite length_drop in H. lia.
Qed.

Lemma C5_history_window_witness :
  (relevancePrompt sample_question long_history =
     relevancePrompt sample_question (drop 2 long_history) /\
   generationPrompt long_history "" sample_question =
     generationPrompt (drop 2 long_history) "" sample_question) /\
  relevancePrompt sample_question long_history <>
    relevancePrompt sample_question (drop 3 long_history) /\
  rewritePrompt sample_question long_history <>
    rewritePrompt sample_question (slice_last 5 long_history).
Proof.
  destruct (C5_history_window sample_question "" long_history (drop 2 long_history))
    as ((_ & Hc) & (_ & Hg) & _ & _ & _ & Hwhole).
  destruct (C5_history_window sample_question "" long_history (drop 3 long_history))
    as ((Hc' & _) & _).
  split; [|split].
  - split; [apply Hc | apply Hg]; reflexivity.
  - intros H. apply Hc' in H. vm_compute in H. discriminate H.
  - apply Hwhole. vm_compute. lia.
Defined.



(** C7.  When the completion call of the rewriter throws, [rewriteQuery]
    returns the query it was given, and a pipeline on the relevant path
    goes on to the embedding of that query and, once it is there, to the
    vector search.  When the call returns a text that starts with the
    label [Rewritten query:], the label is taken off (the rest is trimmed,
    and the query stands in for an empty rest). *)
Theorem C7_rewrite_falls_back w q history log :
  (forall e, chat_completions_create w (rewrite_request q history) = Thrown e ->
     rewriteQuery w q history log =
       (Returned q, log ++ [Completion (rewrite_request q history)]) /\
     forall c,
       chat_completions_create w (classify_request q history) = Returned c ->
       short_circuits (relevance_of c) = false ->
       exists rest,
         (pipeline w history q log).2 =
           log ++ [Completion (classify_request q history);
                   Completion (rewrite_request q history);
                   Embed q] ++ rest /\
         forall embedding, embed w q = Returned embedding ->
           exists rest', rest = Query embedding "bents" 10 :: rest') /\
  (forall rest,
     chat_completions_create w (rewrite_request q history)
       = Returned (Some ("Rewritten query:" +:+ rest)) ->
     rewriteQuery w q history log =
       (Returned (or_else (trim rest) q),
        log ++ [Completion (rewrite_request q history)])).
Proof.
  split.
  - intros e He. split.
    + by rewrite rewriteQuery_run, He.
    + intros c Hc Hs. rewrite (pipeline_otherwise _ _ _ _ _ Hc Hs).
      rewrite relevant_path_run. unfold rewritten_in. rewrite He. simpl.
      rewrite <- !app_assoc. simpl.
      destruct (embed w q) as [embedding|e'].
      * destruct (client_query w embedding "bents" 10) as [rows|e'].
        -- rewrite links_request_run.
           destruct (truthy _).
           ++ match goal with
              | |- context [match ?x with Returned _ => _ | Thrown _ => _ end] =>
                  destruct x as [[]|]
              end; simpl; rewrite <- !app_assoc; simpl;
                eexists; (split; [reflexivity|]); intros ? [= <-]; eauto.
           ++ simpl. rewrite <- !app_assoc. simpl.
              eexists; (split; [reflexivity|]); intros ? [= <-]; eauto.
        -- simpl. rewrite <- !app_assoc. simpl.
           eexists; (split; [reflexivity|]); intros ? [= <-]; eauto.
      * simpl. exists []. split; [done|]. intros ? [=].
  - intros rest Hr. by rewrite rewriteQuery_run, Hr, cleaned_or_leading.
Qed.

Lemma C7_rewrite_falls_back_witness :
  rewriteQuery (sample_world failing_rewrite_script) sample_question sample_messages []
    = (Returned sample_question,
       [] ++ [Completion (rewrite_request sample_question sample_messages)]) /\
  (exists rest,
     (pipeline (sample_world failing_rewrite_script) sample_messages sample_question []).2 =
       [] ++ [Completion (classify_request sample_question sample_messages);
              Completion (rewrite_request sample_question sample_messages);
              Embed sample_question] ++ rest /\
     exists rest', rest = Query [1%Q; 0%Q] "bents" 10 :: rest') /\
  rewriteQuery (sample_world (sample_script "relevant")) sample_question sample_messages []
    = (Returned (or_else (trim " best glue for end grain joints") sample_question),
       [] ++ [Completion (rewrite_request sample_question sample_messages)]).
Proof.
  destruct (C7_rewrite_falls_back (sample_world failing_rewrite_script)
              sample_question sample_messages []) as [Hthrow _].
  destruct (Hthrow (Error "429 rate limit") ltac:(vm_compute; reflexivity))
    as [Hquery Hpipeline].
  destruct (Hpipeline (Some "RELEVANT") ltac:(vm_compute; reflexivity)
              ltac:(vm_compute; reflexivity)) as (rest & Hlog & Hsearch).
  destruct (C7_rewrite_falls_back (sample_world (sample_script "relevant"))
              sample_question sample_messages []) as [_ Hstrip].
  split; [exact Hquery|]. split.
  - exists rest. split; [exact Hlog|].
    apply (Hsearch [1%Q; 0%Q]). vm_compute. reflexivity.
  - apply (Hstrip " best glue for end grain joints"). vm_compute. reflexivity.
Defined.

(** C8.  The context is a function of the documents alone: the empty
    sequence gives the empty string, one document gives its three lines
    [Source: title], [Content: text], [URL: url] with nothing after them,
    and more documents give their blocks in the order of the input, a
    blank line between two blocks.  An empty result of the search does not
    stop the relevant path: no links request is made, the generation call
    is made with the empty context, and its answer is the result. *)
Theorem C8_context_assembly :
  contextTexts [] = "" /\
  (forall d,
     contextTexts [d] =
       "Source: " +:+ doc_title d +:+ nl +:+
       "Content: " +:+ doc_text d +:+ nl +:+
       "URL: " +:+ doc_url d) /\
  (forall d d' ds,
     contextTexts (d :: d' :: ds) =
       contextTexts [d] +:+ nl +:+ nl +:+ contextTexts (d' :: ds)) /\
  (forall w messages q log c embedding,
     chat_completions_create w (classify_request q messages) = Returned c ->
     short_circuits (relevance_of c) = false ->
     embed w (rewritten_in w q messages) = Returned embedding ->
     client_query w embedding "bents" 10 = Returned [] ->
     pipeline w messages q log =
       (map_outcome (chat_result q (rewritten_in w q messages) [])
          (answer_of (chat_completions_create w (generation_request messages "" q))),
        log ++ [Completion (classify_request q messages);
                Completion (rewrite_request q messages);
                Embed (rewritten_in w q messages);
                Query embedding "bents" 10;
                Completion (generation_request messages "" q)])).
Proof.
  split; [reflexivity|]. split; [reflexivity|]. split.
  - intros d d' ds. rewrite contextTexts_cons. reflexivity.
  - intros w messages q log c embedding Hc Hs He Hq.
    rewrite (pipeline_otherwise _ _ _ _ _ Hc Hs), relevant_path_run.
    simpl. rewrite He, Hq. simpl.
    by rewrite <- !app_assoc.
Qed.

Lemma C8_context_assembly_witness :
  let w := set_neon (Returned {[ "bents" := [] ]}) (sample_world (sample_script "relevant")) in
  pipeline w sample_messages sample_question [] =
    (map_outcome (chat_result sample_question (rewritten_in w sample_question sample_messages) [])
       (answer_of (chat_completions_create w
                     (generation_request sample_messages "" sample_question))),
     [] ++ [Completion (classify_request sample_question sample_messages);
            Completion (rewrite_request sample_question sample_messages);
            Embed (rewritten_in w sample_question sample_messages);
            Query [1%Q; 0%Q] "bents" 10;
            Completion (generation_request sample_messages "" sample_question)]).
Proof.
  intros w.
  destruct C8_context_assembly as (_ & _ & _ & Hempty).
  apply (Hempty w sample_messages sample_question [] (Some "relevant") [1%Q; 0%Q]);
    vm_compute; reflexivity.
Defined.

(** C9 as it stands does not hold for every embedding and corpus.  The
    store refuses an empty embedding, also when no row qualifies, and an
    embedding of another dimension than the stored vectors: the search
    logs the error and throws it.  And a stored zero vector has the
    distance NaN, so its score is NaN and the scores of the result are not
    non-increasing. *)
Lemma C9_search_throws_or_scores_nan :
  let w := sample_world (sample_script "relevant") in
  searchNeonDb w [] "bents" 10 [] =
    (Thrown (Error "vector must have at least 1 dimension"),
     [Query [] "bents" 10; Console_error "[DB Search] Error:"]) /\
  searchNeonDb (set_neon (Returned {[ "bents" := [] ]}) w) [] "bents" 10 [] =
    (Thrown (Error "vector must have at least 1 dimension"),
     [Query [] "bents" 10; Console_error "[DB Search] Error:"]) /\
  searchNeonDb w [1%Q; 0%Q; 0%Q] "bents" 10 [] =
    (Thrown (Error "different vector dimensions 2 and 3"),
     [Query [1%Q; 0%Q; 0%Q] "bents" 10; Console_error "[DB Search] Error:"]) /\
  (exists docs,
     (searchNeonDb (set_neon (Returned {[ "bents" := rows_with_zero_vector ]}) w)
        [1%Q; 0%Q] "bents" 10 []).1 = Returned docs /\
     similarity_score <$> docs = [Real 1; NaN] /\
     ~ number_ge (Real 1) NaN).
Proof.
  split; [vm_compute; reflexivity|]. split; [vm_compute; reflexivity|].
  split; [vm_compute; reflexivity|].
  eexists. split; [vm_compute; reflexivity|]. split; [reflexivity|]. by intros [].
Qed.

(** C9, amended.  On a relation the pool can reach: when the store
    accepts the query vector and computes its distance to every stored
    vector, the search returns the documents of at most [topK] rows (10 in
    the pipeline), all of them rows with a vector, each document with the
    fields of its row, in the order of ascending distance to the query
    vector with the NaN distances last; they are the nearest rows: no row
    left out is nearer than a returned one, and a row is left out only
    when [topK] rows are returned.  The score is 1 minus the distance (NaN
    for a NaN distance), and the scores that are numbers do not increase
    along the result.  When no row has a vector the result is the empty
    sequence, returned and not thrown.  When the store refuses the query
    vector, or a stored vector with it, the search logs the error and
    throws. *)
Theorem C9_vector_search w queryEmbedding tableName topK relations rows log :
  neon w = Returned relations ->
  relations !! tableName = Some rows ->
  (vector_in w queryEmbedding = Returned () ->
   distances_defined w queryEmbedding rows ->
   exists scored picked rest : list (Row * float8),
     Forall2 (fun c s => s.1 = c.1 /\ distance w c.2 queryEmbedding = Returned s.2)
       (candidates rows) scored /\
     scored ≡ₚ picked ++ rest /\
     (forall p r, p ∈ picked -> r ∈ rest -> float8_le p.2 r.2) /\
     (rest = [] \/ length picked = topK) /\
     searchNeonDb w queryEmbedding tableName topK log =
       (Returned (document_at w <$> picked),
        log ++ [Query queryEmbedding tableName topK]) /\
     length picked = Nat.min topK (length (candidates rows)) /\
     length (document_at w <$> picked) <= topK /\
     Forall (fun c => exists v,
               c.1 ∈ rows /\ vector c.1 = Some v /\
               distance w v queryEmbedding = Returned c.2) picked /\
     Forall (fun c => made_of (document_at w c) c.1 /\
                      similarity_score (document_at w c) = one_minus w c.2) picked /\
     StronglySorted nearer picked /\
     (monotone (float8_round w) ->
      StronglySorted score_not_below (document_at w <$> picked)) /\
     (Forall (fun r => vector r = None) rows -> picked = [])) /\
  (forall e,
     vector_in w queryEmbedding = Thrown e ->
     searchNeonDb w queryEmbedding tableName topK log =
       (Thrown e,
        log ++ [Query queryEmbedding tableName topK;
                Console_error "[DB Search] Error:"])) /\
  (forall r v e,
     r ∈ rows -> vector r = Some v -> distance w v queryEmbedding = Thrown e ->
     exists e',
       searchNeonDb w queryEmbedding tableName topK log =
         (Thrown e',
          log ++ [Query queryEmbedding tableName topK;
                  Console_error "[DB Search] Error:"])).
Proof.
  intros Hn Hr. rewrite (searchNeonDb_run _ _ _ _ _ _ _ Hn Hr).
  split; [|split].
  - intros Hv Hd. rewrite Hv.
    destruct (distances_defined_returns _ _ _ Hd) as [scored Hs]. rewrite Hs.
    pose proof (distances_spec _ _ _ _ Hs) as Hspec.
    exists scored, (take topK (merge_sort nearer scored)),
      (drop topK (merge_sort nearer scored)).
    assert (Hlen : length (take topK (merge_sort nearer scored))
                   = Nat.min topK (length (candidates rows))).
    { rewrite length_take, (Permutation_length (merge_sort_Permutation _ _)).
      by rewrite (Forall2_length _ _ _ Hspec). }
    split; [exact Hspec|].
    split; [by rewrite take_drop, merge_sort_Permutation|].
    split.
    { intros p r Hp Hrest.
      apply (StronglySorted_app_1_elem_of nearer
               (take topK (merge_sort nearer scored))
               (drop topK (merge_sort nearer scored)) p r); [|done..].
      rewrite take_drop. apply merge_sort_nearer_sorted. }
    split.
    { destruct (decide (topK <= length (merge_sort nearer scored))) as [Hle|Hgt].
      - right. by apply length_take_le.
      - left. apply drop_ge. lia. }
    split; [done|]. split; [exact Hlen|]. split; [rewrite length_fmap, Hlen; lia|].
    split; [|split; [|split; [|split]]].
    + apply Forall_take, Forall_forall. intros s Hin.
      rewrite merge_sort_Permutation in Hin.
      apply list_elem_of_lookup_1 in Hin as [i Hi].
      destruct (Forall2_lookup_r _ _ _ _ _ Hspec Hi) as ([r v] & Hc & Hrow & Hdist).
      simpl in Hrow, Hdist. apply list_elem_of_lookup_2, candidates_elem in Hc.
      exists v. rewrite Hrow. by destruct Hc.
    + by apply Forall_forall.
    + apply select_sorted.
    + intros Hround. eapply StronglySorted_fmap; [|apply select_sorted].
      intros a b. by apply nearer_score.
    + intros Hnull. rewrite (candidates_none _ Hnull) in Hs.
      injection Hs as <-. by destruct topK.
  - by intros e ->.
  - intros r v e Hin Hv He.
    destruct (vector_in w queryEmbedding); [|by eexists].
    destruct (distances_throws (distance w) queryEmbedding (candidates rows) r v e)
      as [e' ->]; [by apply candidates_elem | done | by eexists].
Qed.

Lemma C9_vector_search_witness :
  let w := set_neon (Returned {[ "bents" := rows_with_zero_vector ]})
             (sample_world (sample_script "relevant")) in
  (exists picked : list (Row * float8),
     searchNeonDb w [1%Q; 0%Q] "bents" 10 [] =
       (Returned (document_at w <$> picked), [] ++ [Query [1%Q; 0%Q] "bents" 10]) /\
     length picked = 2%nat /\
     StronglySorted nearer picked /\
     StronglySorted score_not_below (document_at w <$> picked)) /\
  searchNeonDb w [] "bents" 10 [] =
    (Thrown (Error "vector must have at least 1 dimension"),
     [] ++ [Query [] "bents" 10; Console_error "[DB Search] Error:"]) /\
  (exists e,
     searchNeonDb w [1%Q; 0%Q; 0%Q] "bents" 10 [] =
       (Thrown e,
        [] ++ [Query [1%Q; 0%Q; 0%Q] "bents" 10; Console_error "[DB Search] Error:"])).
Proof.
  intros w.
  assert (Hn : neon w = Returned {[ "bents" := rows_with_zero_vector ]}) by reflexivity.
  assert (Hr : ({[ "bents" := rows_with_zero_vector ]} : gmap string (list Row))
               !! "bents" = Some rows_with_zero_vector) by (vm_compute; reflexivity).
  split; [|split].
  - destruct (C9_vector_search w [1%Q; 0%Q] "bents" 10 _ _ [] Hn Hr) as (Hok & _ & _).
    destruct Hok as (scored & picked & rest & _ & _ & _ & _ & Hrun & Hlen & Hrest).
    + reflexivity.
    + intros r v Hin Hvec.
      repeat (apply elem_of_cons in Hin as [-> | Hin]); [| |by inv Hin];
        injection Hvec as <-; eexists; vm_compute; reflexivity.
    + destruct Hrest as (_ & _ & _ & Hnear & Hscore & _).
      exists picked. split; [exact Hrun|]. split; [exact Hlen|].
      split; [exact Hnear|]. apply Hscore. by intros x y.
  - destruct (C9_vector_search w [] "bents" 10 _ _ [] Hn Hr) as (_ & Hrefused & _).
    by apply Hrefused.
  - destruct (C9_vector_search w [1%Q; 0%Q; 0%Q] "bents" 10 _ _ [] Hn Hr)
      as (_ & _ & Hdim).
    eapply Hdim; [apply elem_of_cons; by left | reflexivity | vm_compute; reflexivity].
Defined.

(** C10.  Every result the pipeline returns has [metadata.output] equal
    to [text] and [metadata.responseType] equal to [type]; on the
    greeting, inappropriate and not-relevant branches
    [metadata.contextCount] is 0 and [metadata.rewrittenQuery] is the
    empty string. *)
Theorem C10_result_metadata w messages q log r log' :
  pipeline w messages q log = (Returned r, log') ->
  output (metadata r) = text r /\
  responseType (metadata r) = type r /\
  exists c,
    chat_completions_create w (classify_request q messages) = Returned c /\
    (relevance_of c = "GREETING" -> type r = "greeting") /\
    (relevance_of c = "INAPPROPRIATE" -> type r = "inappropriate") /\
    (relevance_of c = "NOT_RELEVANT" -> type r = "not-relevant") /\
    (short_circuits (relevance_of c) = false -> type r = "chat") /\
    (short_circuits (relevance_of c) = true ->
       contextCount (metadata r) = 0%nat /\ rewrittenQuery (metadata r) = "").
Proof.
  intros H.
  destruct (chat_completions_create w (classify_request q messages)) as [c|e] eqn:Hc;
    [|by rewrite (pipeline_classifier_throws _ _ _ _ _ Hc) in H].
  destruct (short_circuits (relevance_of c)) eqn:Hs.
  - assert (Hshape : exists kind answer, r = short_circuit kind q answer /\
              (relevance_of c = "GREETING" -> kind = "greeting") /\
              (relevance_of c = "INAPPROPRIATE" -> kind = "inappropriate") /\
              (relevance_of c = "NOT_RELEVANT" -> kind = "not-relevant")).
    { destruct (short_circuits_cases _ Hs) as [L | [L | L]].
      - rewrite (pipeline_greeting _ _ _ _ _ Hc L) in H.
        destruct (chat_completions_create w (greeting_request q)); [|done].
        injection H as <- _. eexists _, _. rewrite L. by repeat split.
      - rewrite (pipeline_inappropriate _ _ _ _ _ Hc L) in H.
        injection H as <- _. eexists _, _. rewrite L. by repeat split.
      - rewrite (pipeline_not_relevant _ _ _ _ _ Hc L) in H.
        destruct (chat_completions_create w (not_relevant_request q)); [|done].
        injection H as <- _. eexists _, _. rewrite L. by repeat split. }
    destruct Hshape as (kind & answer & -> & HG & HI & HN).
    repeat split; try done. exists c.
    repeat split; simpl; auto; intros; congruence.
  - rewrite (pipeline_otherwise _ _ _ _ _ Hc Hs) in H.
    apply relevant_path_result in H as (Ht & Ho & Hr).
    repeat split; [done | congruence |].
    exists c. split; [done|].
    repeat split; try (intros L; rewrite L in Hs; discriminate Hs);
      auto; congruence.
Qed.

Lemma C10_result_metadata_witness :
  exists r log,
    pipeline (sample_world (sample_script "relevant")) sample_messages
      "What glue is best for end-grain joints?" [] = (Returned r, log) /\
    output (metadata r) = text r /\
    responseType (metadata r) = type r.
Proof.
  assert (E : exists r log,
             pipeline (sample_world (sample_script "relevant")) sample_messages
               "What glue is best for end-grain joints?" [] = (Returned r, log))
    by (eexists _, _; vm_compute; reflexivity).
  destruct E as (r & log & E). exists r, log. split; [exact E|].
  destruct (C10_result_metadata _ _ _ _ _ _ E) as (Ho & Ht & _).
  split; [exact Ho | exact Ht].
Defined.

(** ** Further properties of the route *)

(** *** Trimming and upper-casing *)

Lemma upper_char_idem c : upper_char (upper_char c) = upper_char c.
Proof. by destruct c as [[] [] [] [] [] [] [] []]. Qed.

Lemma upper_char_white_space c : is_white_space (upper_char c) = is_white_space c.
Proof. by destruct c as [[] [] [] [] [] [] [] []]. Qed.

Lemma upper_char_sharp c :
  (code c =? 223)%N = false -> (code (upper_char c) =? 223)%N = false.
Proof. by destruct c as [[] [] [] [] [] [] [] []]. Qed.

Lemma sharp_white_space c : (code c =? 223)%N = true -> is_white_space c = false.
Proof. by destruct c as [[] [] [] [] [] [] [] []]. Qed.

Lemma upper_char_in_range c : capital_in_range (upper_char c) = capital_in_range c.
Proof. by destruct c as [[] [] [] [] [] [] [] []]. Qed.

(** The letters above U+007F are written by their code: U+00E9 becomes
    U+00C9, the sharp s becomes SS, the division sign stays. *)
Lemma toUpperCase_latin1 :
  toUpperCase ("caf" +:+ String (ascii_of_N 233) "") = "CAF" +:+ String (ascii_of_N 201) "" /\
  toUpperCase ("stra" +:+ String (ascii_of_N 223) "e") = "STRASSE" /\
  toUpperCase (String (ascii_of_N 247) "") = String (ascii_of_N 247) "".
Proof. by repeat split. Qed.

Lemma toUpperCase_idem s : toUpperCase (toUpperCase s) = toUpperCase s.
Proof.
  induction s as [|c s IH]; simpl; [done|].
  destruct (code c =? 223)%N eqn:E; simpl; [by rewrite IH|].
  by rewrite (upper_char_sharp _ E), upper_char_idem, IH.
Qed.

Lemma toUpperCase_in_range s : upper_in_range (toUpperCase s) = upper_in_range s.
Proof.
  induction s as [|c s IH]; simpl; [done|].
  destruct (code c =? 223)%N eqn:E; simpl.
  - rewrite IH. by destruct c as [[] [] [] [] [] [] [] []].
  - by rewrite upper_char_in_range, IH.
Qed.

Lemma trimStart_in_range s : upper_in_range s = true -> upper_in_range (trimStart s) = true.
Proof.
  induction s as [|c s IH]; simpl; [done|]. intros H.
  destruct (is_white_space c); [|done]. apply IH. by apply andb_prop in H as [_ ?].
Qed.

Lemma trimEnd_in_range s : upper_in_range s = true -> upper_in_range (trimEnd s) = true.
Proof.
  induction s as [|c s IH]; simpl; [done|]. intros H.
  apply andb_prop in H as [Hc Hs]. specialize (IH Hs).
  destruct (trimEnd s); simpl in *; [|by rewrite Hc].
  destruct (is_white_space c); simpl; [done|]. by rewrite Hc.
Qed.

Lemma trim_in_range s : upper_in_range s = true -> upper_in_range (trim s) = true.
Proof. intros H. by apply trimEnd_in_range, trimStart_in_range. Qed.

Lemma trimStart_toUpperCase s : trimStart (toUpperCase s) = toUpperCase (trimStart s).
Proof.
  induction s as [|c s IH]; simpl; [done|].
  destruct (code c =? 223)%N eqn:E; simpl.
  - rewrite (sharp_white_space _ E). simpl. by rewrite E.
  - rewrite upper_char_white_space.
    destruct (is_white_space c); [done|]. simpl. by rewrite E.
Qed.

Lemma trimEnd_toUpperCase s : trimEnd (toUpperCase s) = toUpperCase (trimEnd s).
Proof.
  induction s as [|c s IH]; simpl; [done|].
  destruct (code c =? 223)%N eqn:E.
  - change (trimEnd (String "S" (String "S" (toUpperCase s))))
      with (match (match trimEnd (toUpperCase s) with
                   | "" => "S"
                   | t => String "S" t
                   end) with
            | "" => "S"
            | t => String "S" t
            end).
    rewrite IH, (sharp_white_space _ E).
    destruct (trimEnd s) as [|c' t] eqn:Et; simpl; rewrite E; [done|].
    by destruct (code c' =? 223)%N.
  - simpl. rewrite IH, upper_char_white_space.
    destruct (trimEnd s) as [|c' t]; simpl.
    + destruct (is_white_space c); simpl; [done|]. by rewrite E.
    + rewrite E. by destruct (code c' =? 223)%N.
Qed.

Lemma trim_toUpperCase s : trim (toUpperCase s) = toUpperCase (trim s).
Proof. unfold trim. by rewrite trimStart_toUpperCase, trimEnd_toUpperCase. Qed.

(** A text that does not start with white space. *)
Lemma trimStart_fixed s :
  match s with "" => True | String c _ => is_white_space c = false end ->
  trimStart s = s.
Proof. destruct s as [|c s]; simpl; [done|]. by intros ->. Qed.

Lemma trimStart_clean s :
  match trimStart s with "" => True | String c _ => is_white_space c = false end.
Proof.
  induction s as [|c s IH]; simpl; [done|].
  by destruct (is_white_space c) eqn:E; simpl.
Qed.

Lemma trimEnd_clean s :
  match s with "" => True | String c _ => is_white_space c = false end ->
  match trimEnd s with "" => True | String c _ => is_white_space c = false end.
Proof.
  destruct s as [|c s]; simpl; [done|]. intros Hc.
  destruct (trimEnd s); simpl; [by rewrite Hc|done].
Qed.

Lemma trimEnd_idem s : trimEnd (trimEnd s) = trimEnd s.
Proof.
  induction s as [|c s IH]; simpl; [done|].
  destruct (trimEnd s) as [|c' t] eqn:E.
  - destruct (is_white_space c) eqn:Hc; simpl; [done|]. by rewrite Hc.
  - change (trimEnd (String c (String c' t))) with
      (match trimEnd (String c' t) with
       | "" => if is_white_space c then "" else String c ""
       | t' => String c t'
       end).
    by rewrite IH.
Qed.

Lemma trim_idem s : trim (trim s) = trim s.
Proof.
  unfold trim.
  rewrite (trimStart_fixed (trimEnd (trimStart s)));
    [apply trimEnd_idem | apply trimEnd_clean, trimStart_clean].
Qed.

Lemma or_else_truthy a b : truthy b = true -> truthy (or_else a b) = true.
Proof. unfold or_else. by destruct (truthy a) eqn:E. Qed.

Lemma or_else_self a b : truthy a = true -> or_else a b = a.
Proof. unfold or_else. by intros ->. Qed.

Lemma truthy_nonempty s : truthy s = true <-> s <> "".
Proof. by destruct s. Qed.

Lemma relevance_of_cases c :
  relevance_of c = "NOT_RELEVANT" \/
  exists a, c = Some a /\ truthy (toUpperCase (trim a)) = true.
Proof.
  destruct c as [a|]; [|by left].
  destruct (truthy (toUpperCase (trim a))) eqn:E; [right; by exists a|].
  left. unfold relevance_of, opt_or_else, or_else. simpl. by rewrite E.
Qed.

(** X1.  For an answer of the classifier whose upper-casing stays among
    the code units below 256 (every ASCII answer is one): the label
    [checkRelevance] returns is never the empty string and is such a text
    again, reading it again as an answer gives the same label, and the
    label does not depend on the case of the letters of the answer nor on
    the white space around it. *)
Theorem X1_relevance_label_normal_form (c : option string) (s : string) :
  (forall a, c = Some a -> upper_in_range a = true) ->
  upper_in_range s = true ->
  relevance_of c <> "" /\
  upper_in_range (relevance_of c) = true /\
  relevance_of (Some (relevance_of c)) = relevance_of c /\
  relevance_of (Some (toUpperCase s)) = relevance_of (Some s) /\
  relevance_of (Some (trim s)) = relevance_of (Some s).
Proof.
  intros Hc Hs. split; [|split; [|split; [|split]]].
  - apply truthy_nonempty. unfold relevance_of, opt_or_else.
    destruct c; simpl; [by apply or_else_truthy | done].
  - destruct (relevance_of_cases c) as [-> | (a & -> & Ha)]; [done|].
    unfold relevance_of, opt_or_else. simpl. rewrite (or_else_self _ _ Ha).
    rewrite toUpperCase_in_range. by apply trim_in_range, Hc.
  - destruct (relevance_of_cases c) as [-> | (a & -> & Ha)]; [done|].
    unfold relevance_of, opt_or_else in *. simpl in *.
    rewrite (or_else_self _ _ Ha).
    by rewrite trim_toUpperCase, trim_idem, toUpperCase_idem, or_else_self.
  - unfold relevance_of. simpl. by rewrite trim_toUpperCase, toUpperCase_idem.
  - unfold relevance_of. simpl. by rewrite trim_idem.
Qed.

Lemma X1_relevance_label_normal_form_witness :
  let cafe := "caf" +:+ String (ascii_of_N 233) "" in
  relevance_of (Some (relevance_of (Some " greeting"))) = relevance_of (Some " greeting") /\
  relevance_of (Some (toUpperCase cafe)) = relevance_of (Some cafe) /\
  relevance_of (Some " greeting") = "GREETING" /\
  relevance_of (Some cafe) = "CAF" +:+ String (ascii_of_N 201) "".
Proof.
  intros cafe.
  destruct (X1_relevance_label_normal_form (Some " greeting") cafe)
    as (_ & _ & Hidem & Hcase & _).
  - by intros a [= <-].
  - reflexivity.
  - split; [exact Hidem|]. split; [exact Hcase|]. split; reflexivity.
Defined.

(** *** The rewriter and the query *)

(** X2.  [rewriteQuery] never throws and makes exactly one completion
    call.  What it returns is the query itself or a non-empty text with no
    white space around it, so a non-empty query is never rewritten to the
    empty string. *)
Theorem X2_rewriteQuery_total w q history log :
  exists r,
    rewriteQuery w q history log =
      (Returned r, log ++ [Completion (rewrite_request q history)]) /\
    (r = q \/ (r <> "" /\ trim r = r)) /\
    (q <> "" -> r <> "").
Proof.
  rewrite rewriteQuery_run. eexists. split; [reflexivity|].
  assert (H : forall c, cleaned_or q c = q \/
                        (cleaned_or q c <> "" /\ trim (cleaned_or q c) = cleaned_or q c)).
  { intros [a|]; [|by left]. unfold cleaned_or, opt_or_else, or_else. simpl.
    destruct (truthy (trim (replace "Rewritten query:" "" a))) eqn:E; [|by left].
    right. split; [by apply truthy_nonempty | apply trim_idem]. }
  destruct (chat_completions_create w (rewrite_request q history)) as [c|e].
  - split; [apply H|]. intros Hq. by destruct (H c) as [-> | [Hne _]].
  - split; [by left | done].
Qed.

Lemma X2_rewriteQuery_total_witness :
  exists r,
    rewriteQuery (sample_world failing_rewrite_script) sample_question sample_messages [] =
      (Returned r, [] ++ [Completion (rewrite_request sample_question sample_messages)]) /\
    r <> "".
Proof.
  destruct (X2_rewriteQuery_total (sample_world failing_rewrite_script)
              sample_question sample_messages []) as (r & Hrun & _ & Hne).
  exists r. split; [exact Hrun|]. apply Hne. discriminate.
Defined.

Lemma findLast_snoc {A} (p : A -> bool) l x :
  findLast p (l ++ [x]) = if p x then Some x else findLast p l.
Proof.
  induction l as [|y l IH]; simpl; [by destruct (p x)|].
  rewrite IH. by destruct (p x), (findLast p l).
Qed.

Lemma findLast_Some {A} (p : A -> bool) l x :
  findLast p l = Some x -> x ∈ l /\ p x = true.
Proof.
  induction l as [|y l IH]; simpl; [done|].
  destruct (findLast p l) as [z|].
  - intros [= ->]. destruct (IH eq_refl). split; [by right|done].
  - destruct (p y) eqn:E; [|done]. intros [= ->]. split; [by left|done].
Qed.

(** X3.  The query is read from the end of the conversation: a user
    message at the end gives its content, an assistant message at the end
    is passed over, and a conversation with no message gives the empty
    string.  So the query is empty or the content of a user message of the
    conversation. *)
Theorem X3_last_user_message (messages : list ChatHistory) (m : ChatHistory) :
  lastUserMessage_of [] = "" /\
  lastUserMessage_of (messages ++ [m]) =
    match role m with
    | user => content m
    | assistant => lastUserMessage_of messages
    end /\
  (lastUserMessage_of messages = "" \/
   exists m', m' ∈ messages /\ role m' = user /\
              content m' = lastUserMessage_of messages).
Proof.
  split; [done|]. split.
  - unfold lastUserMessage_of. rewrite findLast_snoc. unfold is_user.
    destruct (role m); simpl; [|done].
    unfold or_else. by destruct (content m).
  - unfold lastUserMessage_of.
    destruct (findLast is_user messages) as [m'|] eqn:E; [|by left].
    apply findLast_Some in E as [Hin Hu]. simpl. unfold or_else.
    destruct (truthy (content m')) eqn:Ht; [|by left].
    right. exists m'. unfold is_user in Hu. by destruct (role m').
Qed.

(** *** The handler *)

(** The handler on a body with messages, once the key is set. *)
Lemma POST_run w req messages log :
  req_json req = Returned (body_messages messages) ->
  unset (getenv w "LANGSMITH_API_KEY") = false ->
  POST w req log =
    match pipeline w messages (lastUserMessage_of messages) log with
    | (Thrown e, log1) =>
        (Returned (JsonResponse 500 (message_or e "Unknown error") None),
         log1 ++ [Console_error "API route error:"])
    | (Returned response, log1) =>
        let settings := completion_settings w response in
        let log2 :=
          log1 ++ GetSettings settings ::
            match exporter_getSettings w settings with
            | Returned _ => []
            | Thrown _ => [Console_error "LangSmith logging error:"]
            end in
        let request := stream_request w messages response in
        match streamText w request with
        | Returned _ =>
            (Returned (DataStreamResponse request), log2 ++ [StreamText request])
        | Thrown e =>
            (Returned (JsonResponse 500 "Failed to stream response"
                         (Some (message_or e "Unknown streaming error"))),
             log2 ++ [StreamText request; Console_error "Streaming error:"])
        end
    end.
Proof.
  intros Hm Hkey. unfold POST. run. rewrite Hm, Hkey.
  destruct (pipeline w messages (lastUserMessage_of messages) log) as [[r|e] log1];
    [|done].
  fold (completion_settings w r).
  destruct (exporter_getSettings w (completion_settings w r)); simpl;
    destruct (streamText w (stream_request w messages r)); simpl;
    by rewrite <- ?app_assoc.
Qed.

(** X4.  The handler never throws: every request gets a response.  A JSON
    error response has status 400 or 500, and the status is 400 exactly
    when the body does not parse, is falsy or has no messages array. *)
Theorem X4_POST_always_answers w req log :
  exists resp log',
    POST w req log = (Returned resp, log') /\
    match resp with
    | JsonResponse st _ _ => st = 400%nat \/ st = 500%nat
    | DataStreamResponse _ => True
    end /\
    ((exists err details, resp = JsonResponse 400 err details)
     <-> ~ carries_messages req).
Proof.
  destruct (req_json req) as [[| |messages]|e] eqn:Hreq.
  - eexists _, _. split; [unfold POST; run; by rewrite Hreq|].
    split; [by left|]. split; [|by eauto].
    intros _ [ms Hms]. congruence.
  - eexists _, _. split; [unfold POST; run; by rewrite Hreq|].
    split; [by left|]. split; [|by eauto].
    intros _ [ms Hms]. congruence.
  - assert (Hcarries : carries_messages req) by (by exists messages).
    destruct (unset (getenv w "LANGSMITH_API_KEY")) eqn:Hkey.
    + eexists _, _. split; [unfold POST; run; by rewrite Hreq, Hkey|].
      split; [by right|]. split; [by intros (? & ? & [=])|done].
    + rewrite (POST_run _ _ _ _ Hreq Hkey).
      destruct (pipeline w messages (lastUserMessage_of messages) log) as [[r|e] log1].
      * simpl. destruct (streamText w (stream_request w messages r));
          eexists _, _; (split; [reflexivity|]).
        -- split; [done|]. split; [by intros (? & ? & [=])|done].
        -- split; [by right|]. split; [by intros (? & ? & [=])|done].
      * eexists _, _. split; [reflexivity|].
        split; [by right|]. split; [by intros (? & ? & [=])|done].
  - eexists _, _. split; [unfold POST; run; by rewrite Hreq|].
    split; [by left|]. split; [|by eauto].
    intros _ [ms Hms]. congruence.
Qed.

Lemma pipeline_set_exporter f w messages q log :
  pipeline (set_exporter f w) messages q log = pipeline w messages q log.
Proof. reflexivity. Qed.

(** X5.  A failure of the trace exporter is swallowed: whatever the
    exporter does, returning or throwing, the handler gives the same
    response. *)
Theorem X5_exporter_failure_is_swallowed f g w req log :
  (POST (set_exporter f w) req log).1 = (POST (set_exporter g w) req log).1.
Proof.
  destruct (req_json req) as [[| |messages]|e] eqn:Hreq;
    try (unfold POST; run; by rewrite Hreq).
  destruct (unset (getenv w "LANGSMITH_API_KEY")) eqn:Hkey.
  - unfold POST. run. rewrite Hreq. unfold getenv in *. simpl. by rewrite Hkey.
  - rewrite !(POST_run _ _ messages _ Hreq) by exact Hkey.
    rewrite !pipeline_set_exporter.
    destruct (pipeline w messages (lastUserMessage_of messages) log) as [[r|e] log1];
      [|done].
    simpl. change (stream_request (set_exporter f w) messages r)
      with (stream_request w messages r).
    change (stream_request (set_exporter g w) messages r)
      with (stream_request w messages r).
    by destruct (streamText w (stream_request w messages r)).
Qed.

(** X6.  A failure of the classifier, of the embedding or of the vector
    search ends the request: the handler answers 500 with the message of
    the error, and the calls stop at the failed stage (the search logs its
    error first); no later stage, no trace export and no streaming call is
    made. *)
Theorem X6_stage_failure_ends_request w req messages log :
  req_json req = Returned (body_messages messages) ->
  unset (getenv w "LANGSMITH_API_KEY") = false ->
  (forall e,
     chat_completions_create w
       (classify_request (lastUserMessage_of messages) messages) = Thrown e ->
     POST w req log =
       (Returned (JsonResponse 500 (message_or e "Unknown error") None),
        log ++ [Completion (classify_request (lastUserMessage_of messages) messages);
                Console_error "API route error:"])) /\
  (forall c,
     chat_completions_create w
       (classify_request (lastUserMessage_of messages) messages) = Returned c ->
     short_circuits (relevance_of c) = false ->
     (forall e,
        embed w (rewritten_in w (lastUserMessage_of messages) messages) = Thrown e ->
        POST w req log =
          (Returned (JsonResponse 500 (message_or e "Unknown error") None),
           log ++ [Completion (classify_request (lastUserMessage_of messages) messages);
                   Completion (rewrite_request (lastUserMessage_of messages) messages);
                   Embed (rewritten_in w (lastUserMessage_of messages) messages);
                   Console_error "API route error:"])) /\
     (forall embedding e,
        embed w (rewritten_in w (lastUserMessage_of messages) messages)
          = Returned embedding ->
        client_query w embedding "bents" 10 = Thrown e ->
        POST w req log =
          (Returned (JsonResponse 500 (message_or e "Unknown error") None),
           log ++ [Completion (classify_request (lastUserMessage_of messages) messages);
                   Completion (rewrite_request (lastUserMessage_of messages) messages);
                   Embed (rewritten_in w (lastUserMessage_of messages) messages);
                   Query embedding "bents" 10;
                   Console_error "[DB Search] Error:";
                   Console_error "API route error:"]))).
Proof.
  intros Hreq Hkey. rewrite (POST_run _ _ _ _ Hreq Hkey). split.
  - intros e He. rewrite (pipeline_classifier_throws _ _ _ _ _ He).
    by rewrite <- app_assoc.
  - intros c Hc Hs. rewrite (pipeline_otherwise _ _ _ _ _ Hc Hs), relevant_path_run.
    simpl. split.
    + intros e He. rewrite He. by rewrite <- !app_assoc.
    + intros embedding e He Hq. rewrite He, Hq. by rewrite <- !app_assoc.
Qed.

Lemma X6_stage_failure_ends_request_witness :
  (POST (sample_world failing_classifier_script) sample_request []).1 =
    Returned (JsonResponse 500 "401 invalid api key" None) /\
  (POST (set_embed embed_down (sample_world (sample_script "relevant")))
     sample_request []).1 =
    Returned (JsonResponse 500 "The operation was aborted due to timeout" None) /\
  (POST (set_neon (Returned ∅) (sample_world (sample_script "relevant")))
     sample_request []).1 =
    Returned (JsonResponse 500
                (("relation " +:+ dq) +:+ ("bents" +:+ dq) +:+ " does not exist") None).
Proof.
  split; [|split].
  - destruct (X6_stage_failure_ends_request (sample_world failing_classifier_script)
                sample_request sample_messages [] eq_refl) as [H _].
    { vm_compute. reflexivity. }
    rewrite (H (Error "401 invalid api key")); [reflexivity|].
    vm_compute. reflexivity.
  - destruct (X6_stage_failure_ends_request
                (set_embed embed_down (sample_world (sample_script "relevant")))
                sample_request sample_messages [] eq_refl) as [_ H].
    { vm_compute. reflexivity. }
    destruct (H (Some "relevant")) as [He _]; [vm_compute; reflexivity..|].
    rewrite (He (Error "The operation was aborted due to timeout")); [reflexivity|].
    vm_compute. reflexivity.
  - destruct (X6_stage_failure_ends_request
                (set_neon (Returned ∅) (sample_world (sample_script "relevant")))
                sample_request sample_messages [] eq_refl) as [_ H].
    { vm_compute. reflexivity. }
    destruct (H (Some "relevant")) as [_ Hq]; [vm_compute; reflexivity..|].
    rewrite (Hq [1%Q; 0%Q]
               (Error (("relation " +:+ dq) +:+ ("bents" +:+ dq) +:+ " does not exist")));
      [reflexivity | vm_compute; reflexivity | vm_compute; reflexivity].
Defined.

(** *** The calls of a request *)

Ltac count := unfold count_calls; simpl; lia.

Lemma context_truthy d ds : truthy (contextTexts (d :: ds)) = true.
Proof. by destruct ds. Qed.

Lemma pipeline_counts w messages q :
  1 <= count_calls is_completion (pipeline w messages q []).2 <= 3 /\
  count_calls is_embed (pipeline w messages q []).2 <= 1 /\
  count_calls is_query (pipeline w messages q []).2
    <= count_calls is_embed (pipeline w messages q []).2 /\
  count_calls is_fetch_links (pipeline w messages q []).2
    <= count_calls is_query (pipeline w messages q []).2 /\
  count_calls is_getSettings (pipeline w messages q []).2 = 0 /\
  count_calls is_streamText (pipeline w messages q []).2 = 0.
Proof.
  destruct (chat_completions_create w (classify_request q messages)) as [c|e] eqn:Hc;
    [|rewrite (pipeline_classifier_throws _ _ _ _ _ Hc); count].
  destruct (short_circuits (relevance_of c)) eqn:Hs.
  - destruct (short_circuits_cases _ Hs) as [L | [L | L]].
    + rewrite (pipeline_greeting _ _ _ _ _ Hc L). count.
    + rewrite (pipeline_inappropriate _ _ _ _ _ Hc L). count.
    + rewrite (pipeline_not_relevant _ _ _ _ _ Hc L). count.
  - rewrite (pipeline_otherwise _ _ _ _ _ Hc Hs), relevant_path_run. simpl.
    destruct (embed w _) as [embedding|e]; [|count].
    destruct (client_query w embedding "bents" 10) as [rows|e]; [|count].
    rewrite links_request_run.
    destruct (truthy _).
    + destruct (fetch_links w _ _) as [r|e]; [destruct (json r)|]; count.
    + count.
Qed.

Lemma precededb_app p q seen l1 l2 :
  precededb p q seen (l1 ++ l2) =
    precededb p q seen l1 && precededb p q (existsb p l1 || seen) l2.
Proof.
  revert seen. induction l1 as [|c l1 IH]; intros seen; simpl; [done|].
  by rewrite IH, <- andb_assoc, (orb_comm (p c) (existsb p l1)), <- orb_assoc.
Qed.

Lemma precededb_none p q seen log :
  count_calls q log = 0 -> precededb p q seen log = true.
Proof.
  unfold count_calls. revert seen.
  induction log as [|c log IH]; intros seen; simpl; [done|].
  destruct (q c); simpl; [done|]. intros H. by apply IH.
Qed.

Lemma precededb_spec p q seen log :
  precededb p q seen log = true ->
  forall before c after,
    log = before ++ c :: after -> q c = true ->
    seen = true \/ exists c', c' ∈ before /\ p c' = true.
Proof.
  revert seen. induction log as [|x log IH]; intros seen H before c after Hlog Hq.
  - by destruct before.
  - simpl in H. apply andb_prop in H as [Hx Hrest].
    destruct before as [|b before]; simpl in Hlog; injection Hlog as -> ->.
    + rewrite Hq in Hx. simpl in Hx. by left.
    + destruct (IH _ Hrest before c after eq_refl Hq) as [Hs | (c' & Hin & Hp)].
      * apply orb_prop in Hs as [Hp | Hs]; [|by left].
        right. exists b. split; [apply elem_of_cons; by left | done].
      * right. exists c'. split; [apply elem_of_cons; by right | done].
Qed.

Lemma precededb_preceded_by p q log :
  precededb p q false log = true -> preceded_by p q log.
Proof.
  intros H before c after Hlog Hq.
  by destruct (precededb_spec _ _ _ _ H before c after Hlog Hq).
Qed.

Lemma pipeline_order w messages q :
  precededb is_embed is_query false (pipeline w messages q []).2 = true /\
  precededb is_query is_fetch_links false (pipeline w messages q []).2 = true.
Proof.
  destruct (chat_completions_create w (classify_request q messages)) as [c|e] eqn:Hc;
    [|by rewrite (pipeline_classifier_throws _ _ _ _ _ Hc)].
  destruct (short_circuits (relevance_of c)) eqn:Hs.
  - destruct (short_circuits_cases _ Hs) as [L | [L | L]].
    + by rewrite (pipeline_greeting _ _ _ _ _ Hc L).
    + by rewrite (pipeline_inappropriate _ _ _ _ _ Hc L).
    + by rewrite (pipeline_not_relevant _ _ _ _ _ Hc L).
  - rewrite (pipeline_otherwise _ _ _ _ _ Hc Hs), relevant_path_run. simpl.
    destruct (embed w _) as [embedding|e]; [|done].
    destruct (client_query w embedding "bents" 10) as [rows|e]; [|done].
    rewrite links_request_run.
    destruct (truthy _); [|done].
    by destruct (fetch_links w _ _) as [r|e]; [destruct (json r)|].
Qed.

Lemma POST_counts w req :
  count_calls is_completion (POST w req []).2 <= 3 /\
  count_calls is_embed (POST w req []).2 <= 1 /\
  count_calls is_query (POST w req []).2 <= count_calls is_embed (POST w req []).2 /\
  count_calls is_fetch_links (POST w req []).2
    <= count_calls is_query (POST w req []).2 /\
  count_calls is_getSettings (POST w req []).2 <= 1 /\
  count_calls is_streamText (POST w req []).2
    <= count_calls is_getSettings (POST w req []).2.
Proof.
  destruct (req_json req) as [[| |messages]|e] eqn:Hreq;
    try (unfold POST; run; rewrite Hreq; count).
  destruct (unset (getenv w "LANGSMITH_API_KEY")) eqn:Hkey;
    [unfold POST; run; rewrite Hreq, Hkey; count|].
  rewrite (POST_run _ _ _ _ Hreq Hkey).
  pose proof (pipeline_counts w messages (lastUserMessage_of messages))
    as (Hc & He & Hq & Hf & Hg & Hs).
  destruct (pipeline w messages (lastUserMessage_of messages) []) as [[r|e] log1];
    simpl in *.
  + destruct (exporter_getSettings w (completion_settings w r));
      destruct (streamText w (stream_request w messages r)); simpl;
      rewrite ?count_calls_app; unfold count_calls in *; simpl;
      rewrite ?List.filter_app, ?length_app; simpl; lia.
  + rewrite !count_calls_app. unfold count_calls in *. simpl. lia.
Qed.

Lemma POST_order w req :
  precededb is_embed is_query false (POST w req []).2 = true /\
  precededb is_query is_fetch_links false (POST w req []).2 = true /\
  precededb is_getSettings is_streamText false (POST w req []).2 = true.
Proof.
  split; [|split].
  - destruct (req_json req) as [[| |messages]|e] eqn:Hreq;
      try (unfold POST; run; by rewrite Hreq).
    destruct (unset (getenv w "LANGSMITH_API_KEY")) eqn:Hkey;
      [unfold POST; run; by rewrite Hreq, Hkey|].
    rewrite (POST_run _ _ _ _ Hreq Hkey).
    pose proof (pipeline_order w messages (lastUserMessage_of messages)) as [Ho _].
    destruct (pipeline w messages (lastUserMessage_of messages) []) as [[r|e] log1];
      simpl in *.
    + by destruct (exporter_getSettings w (completion_settings w r));
        destruct (streamText w (stream_request w messages r)); simpl;
        rewrite <- ?app_assoc; simpl; rewrite precededb_app, Ho.
    + by rewrite precededb_app, Ho.
  - destruct (req_json req) as [[| |messages]|e] eqn:Hreq;
      try (unfold POST; run; by rewrite Hreq).
    destruct (unset (getenv w "LANGSMITH_API_KEY")) eqn:Hkey;
      [unfold POST; run; by rewrite Hreq, Hkey|].
    rewrite (POST_run _ _ _ _ Hreq Hkey).
    pose proof (pipeline_order w messages (lastUserMessage_of messages)) as [_ Ho].
    destruct (pipeline w messages (lastUserMessage_of messages) []) as [[r|e] log1];
      simpl in *.
    + by destruct (exporter_getSettings w (completion_settings w r));
        destruct (streamText w (stream_request w messages r)); simpl;
        rewrite <- ?app_assoc; simpl; rewrite precededb_app, Ho.
    + by rewrite precededb_app, Ho.
  - destruct (req_json req) as [[| |messages]|e] eqn:Hreq;
      try (unfold POST; run; by rewrite Hreq).
    destruct (unset (getenv w "LANGSMITH_API_KEY")) eqn:Hkey;
      [unfold POST; run; by rewrite Hreq, Hkey|].
    rewrite (POST_run _ _ _ _ Hreq Hkey).
    pose proof (pipeline_counts w messages (lastUserMessage_of messages))
      as (_ & _ & _ & _ & _ & Hs).
    pose proof (precededb_none is_getSettings _ false _ Hs) as Ho.
    destruct (pipeline w messages (lastUserMessage_of messages) []) as [[r|e] log1];
      simpl in *.
    + by destruct (exporter_getSettings w (completion_settings w r));
        destruct (streamText w (stream_request w messages r)); simpl;
        rewrite <- ?app_assoc; simpl; rewrite precededb_app, Ho.
    + by rewrite precededb_app, Ho.
Qed.

(** X7.  One request makes at most three completion calls, one embedding
    call, one vector search, one links request, one trace export and one
    streaming call; every search comes after an embedding call, every
    links request after a search, and every streaming call after a trace
    export. *)
Theorem X7_calls_per_request w req :
  count_calls is_completion (POST w req []).2 <= 3 /\
  count_calls is_embed (POST w req []).2 <= 1 /\
  count_calls is_query (POST w req []).2 <= count_calls is_embed (POST w req []).2 /\
  count_calls is_fetch_links (POST w req []).2
    <= count_calls is_query (POST w req []).2 /\
  count_calls is_getSettings (POST w req []).2 <= 1 /\
  count_calls is_streamText (POST w req []).2
    <= count_calls is_getSettings (POST w req []).2 /\
  preceded_by is_embed is_query (POST w req []).2 /\
  preceded_by is_query is_fetch_links (POST w req []).2 /\
  preceded_by is_getSettings is_streamText (POST w req []).2.
Proof.
  destruct (POST_counts w req) as (H1 & H2 & H3 & H4 & H5 & H6).
  destruct (POST_order w req) as (O1 & O2 & O3).
  repeat (split; [assumption|]).
  split; [|split]; by apply precededb_preceded_by.
Qed.

Lemma links_request_docs w docs rewritten log :
  links_request w (contextTexts docs) rewritten log =
    match docs with
    | [] => (Returned (), log)
    | _ =>
        (match fetch_links w (contextTexts docs) rewritten with
         | Returned r => map_outcome (fun _ => ()) (json r)
         | Thrown e => Thrown e
         end, log ++ [Fetch_links (contextTexts docs) rewritten])
    end.
Proof.
  rewrite links_request_run. destruct docs as [|d ds]; [done|].
  by rewrite context_truthy.
Qed.

(** A result of the relevant path, with the answers it is made of. *)
Lemma relevant_path_returns w messages q log r log' :
  relevant_path w messages q log = (Returned r, log') ->
  exists embedding rows c,
    embed w (rewritten_in w q messages) = Returned embedding /\
    client_query w embedding "bents" 10 = Returned rows /\
    chat_completions_create w
      (generation_request messages (contextTexts (document_of <$> rows)) q)
      = Returned c /\
    r = chat_result q (rewritten_in w q messages) (document_of <$> rows)
          (opt_or_else c "") /\
    log' = log ++ [Completion (rewrite_request q messages);
                   Embed (rewritten_in w q messages);
                   Query embedding "bents" 10]
               ++ links_calls (document_of <$> rows) (rewritten_in w q messages)
               ++ [Completion (generation_request messages
                                 (contextTexts (document_of <$> rows)) q)].
Proof.
  rewrite relevant_path_run. simpl.
  destruct (embed w _) as [embedding|e] eqn:He; [|done].
  destruct (client_query w embedding "bents" 10) as [rows|e] eqn:Hq; [|done].
  rewrite links_request_docs. unfold fmap.
  destruct (chat_completions_create w (generation_request _ _ _)) as [c|e] eqn:Hg;
    (destruct (list_fmap _ _ document_of rows) as [|d ds] eqn:Ed;
      [|destruct (fetch_links w _ _) as [lr|]; [destruct (json lr)|]]);
    simpl; try done.
  all: intros [= <- <-]; exists embedding, rows, c; unfold fmap; rewrite Ed.
  all: repeat split; try done; by rewrite <- ?app_assoc.
Qed.

Lemma select_length w queryEmbedding topK rows found :
  select w queryEmbedding topK rows = Returned found ->
  length found = Nat.min topK (length (candidates rows)).
Proof.
  unfold select. destruct (vector_in w queryEmbedding); [|done].
  destruct (distances _ _ _) as [scored|] eqn:Hs; [|done]. intros [= <-].
  rewrite length_fmap, length_take, (Permutation_length (merge_sort_Permutation _ _)).
  by rewrite (Forall2_length _ _ _ (distances_spec _ _ _ _ Hs)).
Qed.

Lemma client_query_returns w queryEmbedding tableName topK rows :
  client_query w queryEmbedding tableName topK = Returned rows ->
  exists relations stored,
    neon w = Returned relations /\ relations !! tableName = Some stored /\
    select w queryEmbedding topK stored = Returned rows.
Proof.
  unfold client_query. destruct (neon w) as [relations|]; [|done].
  destruct (relations !! tableName) as [stored|] eqn:E; [|done].
  intros H. by exists relations, stored.
Qed.

(** A result of the pipeline is the result of a short circuit or of the
    relevant path. *)
Lemma pipeline_returns w messages q log r log' :
  pipeline w messages q log = (Returned r, log') ->
  (exists kind answer, r = short_circuit kind q answer /\ kind <> "chat") \/
  relevant_path w messages q (log ++ [Completion (classify_request q messages)])
    = (Returned r, log').
Proof.
  intros H.
  destruct (chat_completions_create w (classify_request q messages)) as [c|e] eqn:Hc;
    [|by rewrite (pipeline_classifier_throws _ _ _ _ _ Hc) in H].
  destruct (short_circuits (relevance_of c)) eqn:Hs.
  - left. destruct (short_circuits_cases _ Hs) as [L | [L | L]].
    + rewrite (pipeline_greeting _ _ _ _ _ Hc L) in H.
      destruct (chat_completions_create w (greeting_request q)); [|done].
      injection H as <- _. by eexists _, _.
    + rewrite (pipeline_inappropriate _ _ _ _ _ Hc L) in H.
      injection H as <- _. by eexists _, _.
    + rewrite (pipeline_not_relevant _ _ _ _ _ Hc L) in H.
      destruct (chat_completions_create w (not_relevant_request q)); [|done].
      injection H as <- _. by eexists _, _.
  - right. by rewrite <- (pipeline_otherwise _ _ _ _ _ Hc Hs).
Qed.

(** X8.  On the relevant path, once the search has returned, the links
    route is called exactly when at least one document was found: once,
    with the assembled context and the rewritten query; never when the
    search found nothing. *)
Theorem X8_links_request_iff_documents w messages q c embedding rows :
  chat_completions_create w (classify_request q messages) = Returned c ->
  short_circuits (relevance_of c) = false ->
  embed w (rewritten_in w q messages) = Returned embedding ->
  client_query w embedding "bents" 10 = Returned rows ->
  List.filter is_fetch_links (pipeline w messages q []).2 =
    links_calls (document_of <$> rows) (rewritten_in w q messages) /\
  (links_calls (document_of <$> rows) (rewritten_in w q messages) = [] <-> rows = []).
Proof.
  intros Hc Hs He Hq. split.
  - rewrite (pipeline_otherwise _ _ _ _ _ Hc Hs), relevant_path_run. simpl.
    rewrite He, Hq, links_request_docs. unfold links_calls, fmap.
    destruct (list_fmap _ _ document_of rows) as [|d ds]; simpl;
      [by destruct (chat_completions_create w _)|].
    destruct (fetch_links w _ _) as [lr|]; [destruct (json lr)|]; simpl;
      rewrite ?List.filter_app; try done.
  - by destruct rows.
Qed.

Lemma X8_links_request_iff_documents_witness :
  let w := sample_world (sample_script "relevant") in
  exists rows,
    List.filter is_fetch_links (pipeline w sample_messages sample_question []).2 =
      links_calls (document_of <$> rows) (rewritten_in w sample_question sample_messages) /\
    length rows = 2%nat.
Proof.
  intros w.
  exists (match select w [1%Q; 0%Q] 10 sample_rows with
          | Returned rows => rows
          | Thrown _ => []
          end).
  split; [|vm_compute; reflexivity].
  apply (X8_links_request_iff_documents w sample_messages sample_question
           (Some "relevant") [1%Q; 0%Q]); vm_compute; reflexivity.
Defined.



(** X10.  The [contextCount] of a result is never above 10; for a result of
    type chat it is the number of rows of the relation that have a vector,
    cut at 10. *)
Theorem X10_context_count_bound w messages q log r log' :
  pipeline w messages q log = (Returned r, log') ->
  contextCount (metadata r) <= 10 /\
  (type r = "chat" ->
   exists relations stored,
     neon w = Returned relations /\ relations !! "bents" = Some stored /\
     contextCount (metadata r) = Nat.min 10 (length (candidates stored))).
Proof.
  intros H.
  destruct (pipeline_returns _ _ _ _ _ _ H) as [(kind & answer & -> & Hk) | Hr].
  - simpl. split; [lia|done].
  - apply relevant_path_returns in Hr as (embedding & rows & c & He & Hq & Hg & -> & _).
    apply client_query_returns in Hq as (relations & stored & Hn & Hl & Hsel).
    simpl. rewrite length_fmap, (select_length _ _ _ _ _ Hsel). split; [lia|].
    intros _. by exists relations, stored.
Qed.

Lemma X10_context_count_bound_witness :
  exists r log',
    pipeline (sample_world (sample_script "relevant")) sample_messages
      sample_question [] = (Returned r, log') /\
    contextCount (metadata r) <= 10 /\
    contextCount (metadata r) = 2%nat.
Proof.
  assert (E : exists r log',
             pipeline (sample_world (sample_script "relevant")) sample_messages
               sample_question [] = (Returned r, log') /\ type r = "chat")
    by (eexists _, _; split; vm_compute; reflexivity).
  destruct E as (r & log' & E & Ht). exists r, log'. split; [exact E|].
  destruct (X10_context_count_bound _ _ _ _ _ _ E) as (Hle & Hchat).
  split; [exact Hle|].
  destruct (Hchat Ht) as (relations & stored & Hn & Hl & ->).
  injection Hn as <-. vm_compute in Hl. injection Hl as <-. reflexivity.
Defined.

(** *** The nearest rows *)

(** X11.  The search returns the nearest rows.  When the store accepts
    the query vector and computes its distance to every stored vector, the
    rows with a vector, each with its distance and as often as it is
    stored, split into the returned ones and the ones left out; no row left
    out is nearer to the query vector than a returned one, a NaN distance
    counting as the farthest; and a row is left out only when [topK] rows
    are returned. *)
Theorem X11_search_returns_nearest w queryEmbedding tableName topK relations rows log :
  neon w = Returned relations ->
  relations !! tableName = Some rows ->
  vector_in w queryEmbedding = Returned () ->
  distances_defined w queryEmbedding rows ->
  exists scored picked rest : list (Row * float8),
    Forall2 (fun c s => s.1 = c.1 /\ distance w c.2 queryEmbedding = Returned s.2)
      (candidates rows) scored /\
    searchNeonDb w queryEmbedding tableName topK log =
      (Returned (document_at w <$> picked),
       log ++ [Query queryEmbedding tableName topK]) /\
    scored ≡ₚ picked ++ rest /\
    (forall p r, p ∈ picked -> r ∈ rest -> float8_le p.2 r.2) /\
    (rest = [] \/ length picked = topK).
Proof.
  intros Hn Hr Hv Hd. rewrite (searchNeonDb_run _ _ _ _ _ _ _ Hn Hr), Hv.
  destruct (distances_defined_returns _ _ _ Hd) as [scored Hs]. rewrite Hs.
  exists scored, (take topK (merge_sort nearer scored)),
    (drop topK (merge_sort nearer scored)).
  split; [by apply distances_spec|]. split; [done|]. split; [|split].
  - by rewrite take_drop, merge_sort_Permutation.
  - intros p r Hp Hrest.
    apply (StronglySorted_app_1_elem_of nearer
             (take topK (merge_sort nearer scored))
             (drop topK (merge_sort nearer scored)) p r); [|done..].
    rewrite take_drop. apply merge_sort_nearer_sorted.
  - destruct (decide (topK <= length (merge_sort nearer scored))) as [Hle|Hgt].
    + right. by apply length_take_le.
    + left. apply drop_ge. lia.
Qed.

Lemma X11_search_returns_nearest_witness :
  let w := set_neon (Returned {[ "bents" := rows_with_zero_vector ]})
             (sample_world (sample_script "relevant")) in
  exists picked rest : list (Row * float8),
    searchNeonDb w [1%Q; 0%Q] "bents" 1 [] =
      (Returned (document_at w <$> picked), [] ++ [Query [1%Q; 0%Q] "bents" 1]) /\
    (forall p r, p ∈ picked -> r ∈ rest -> float8_le p.2 r.2) /\
    (rest = [] \/ length picked = 1%nat).
Proof.
  intros w.
  destruct (X11_search_returns_nearest w [1%Q; 0%Q] "bents" 1
              {[ "bents" := rows_with_zero_vector ]} rows_with_zero_vector [])
    as (scored & picked & rest & _ & Hrun & _ & Hnear & Hfull).
  - reflexivity.
  - vm_compute. reflexivity.
  - reflexivity.
  - intros r v Hin Hvec.
    repeat (apply elem_of_cons in Hin as [-> | Hin]); [| |by inv Hin];
      injection Hvec as <-; eexists; vm_compute; reflexivity.
  - exists picked, rest. split; [exact Hrun|]. split; [exact Hnear | exact Hfull].
Defined.

(** *** What the caller and the trace see *)

Lemma pipeline_result_fields w messages q log r log' :
  pipeline w messages q log = (Returned r, log') ->
  input (metadata r) = q /\
  output (metadata r) = text r /\
  responseType (metadata r) = type r.
Proof.
  intros H.
  destruct (pipeline_returns _ _ _ _ _ _ H) as [(kind & answer & -> & _) | Hr];
    [done|].
  by apply relevant_path_returns in Hr as (? & ? & ? & _ & _ & _ & -> & _).
Qed.

(** X12.  A streamed response carries the conversation as it was
    received, after the system instructions and before the answer of the
    pipeline as the last, assistant message.  Its telemetry names that
    answer as [output], the last user message as [input], and is tagged
    with the response type followed by [-stream]; the streaming call is the
    last call of the request. *)
Theorem X12_stream_carries_answer w req log s log' :
  POST w req log = (Returned (DataStreamResponse s), log') ->
  exists messages r log1,
    req_json req = Returned (body_messages messages) /\
    pipeline w messages (lastUserMessage_of messages) log = (Returned r, log1) /\
    stream_messages s =
      {| msg_role := "system"; msg_content := SYSTEM_INSTRUCTIONS |}
      :: ((fun m => {| msg_role := role_name (role m); msg_content := content m |})
            <$> messages)
      ++ [ {| msg_role := "assistant"; msg_content := text r |} ] /\
    output (tm_metadata (experimental_telemetry s)) = text r /\
    input (tm_metadata (experimental_telemetry s)) = lastUserMessage_of messages /\
    tm_type (experimental_telemetry s)
      = responseType (tm_metadata (experimental_telemetry s)) +:+ "-stream" /\
    last log' = Some (StreamText s).
Proof.
  intros H.
  destruct (req_json req) as [[| |messages]|e] eqn:Hreq;
    try (unfold POST in H; run; by rewrite Hreq in H).
  destruct (unset (getenv w "LANGSMITH_API_KEY")) eqn:Hkey;
    [unfold POST in H; run; by rewrite Hreq, Hkey in H|].
  rewrite (POST_run _ _ _ _ Hreq Hkey) in H.
  destruct (pipeline w messages (lastUserMessage_of messages) log) as [[r|e] log1] eqn:Hp;
    [|done].
  simpl in H. destruct (streamText w (stream_request w messages r)); [|done].
  injection H as <- <-.
  destruct (pipeline_result_fields _ _ _ _ _ _ Hp) as (Hi & Ho & Ht).
  exists messages, r, log1. simpl.
  repeat split; try done; [by rewrite Ht | by rewrite last_snoc].
Qed.

Lemma X12_stream_carries_answer_witness :
  exists s log',
    POST (sample_world (sample_script "inappropriate")) sample_request [] =
      (Returned (DataStreamResponse s), log') /\
    output (tm_metadata (experimental_telemetry s)) = inappropriateAnswer /\
    last log' = Some (StreamText s).
Proof.
  assert (E : exists s log',
             POST (sample_world (sample_script "inappropriate")) sample_request [] =
               (Returned (DataStreamResponse s), log') /\
             output (tm_metadata (experimental_telemetry s)) = inappropriateAnswer)
    by (eexists _, _; split; vm_compute; reflexivity).
  destruct E as (s & log' & E & Ho). exists s, log'. split; [exact E|].
  destruct (X12_stream_carries_answer _ _ _ _ _ E)
    as (messages & r & log1 & _ & _ & _ & _ & _ & _ & Hlast).
  split; [exact Ho | exact Hlast].
Defined.

Lemma getLangSmithMetadata_key w key :
  getLangSmithMetadata (set_env (<["LANGSMITH_API_KEY" := key]> (env w)) w)
    = getLangSmithMetadata w.
Proof.
  unfold getLangSmithMetadata, getenv. simpl. by rewrite !lookup_insert_ne.
Qed.

(** X13.  The value of the LangSmith key goes nowhere: two worlds that
    differ only in the non-empty value of the key answer every request
    with the same response and make the same calls. *)
Theorem X13_key_value_is_not_used w key key' req log :
  key <> "" -> key' <> "" ->
  POST (set_env (<["LANGSMITH_API_KEY" := key]> (env w)) w) req log =
  POST (set_env (<["LANGSMITH_API_KEY" := key']> (env w)) w) req log.
Proof.
  intros Hk Hk'.
  destruct (req_json req) as [[| |messages]|e] eqn:Hreq;
    try (unfold POST; run; by rewrite Hreq).
  assert (Hset : forall k, k <> "" ->
            unset (getenv (set_env (<["LANGSMITH_API_KEY" := k]> (env w)) w)
                     "LANGSMITH_API_KEY") = false).
  { intros k Hne. unfold getenv, unset. simpl. rewrite lookup_insert_eq. simpl.
    apply truthy_nonempty in Hne. by rewrite Hne. }
  rewrite !(POST_run _ _ messages _ Hreq) by by apply Hset.
  change (pipeline (set_env _ w) messages (lastUserMessage_of messages) log)
    with (pipeline w messages (lastUserMessage_of messages) log).
  destruct (pipeline w messages (lastUserMessage_of messages) log) as [[r|e] log1];
    [|done].
  unfold completion_settings, stream_request, telemetry. simpl.
  by rewrite !getLangSmithMetadata_key.
Qed.

Lemma X13_key_value_is_not_used_witness :
  POST (set_env (<["LANGSMITH_API_KEY" := "ls-one"]>
                   (env (sample_world (sample_script "relevant"))))
          (sample_world (sample_script "relevant"))) sample_request [] =
  POST (set_env (<["LANGSMITH_API_KEY" := "ls-two"]>
                   (env (sample_world (sample_script "relevant"))))
          (sample_world (sample_script "relevant"))) sample_request [].
Proof.
  apply (X13_key_value_is_not_used (sample_world (sample_script "relevant"))
           "ls-one" "ls-two"); discriminate.
Defined.

(** X14.  The rewriter is the only stage the pipeline can lose: when the
    classification, greeting, deflection and generation calls, the
    embedding, the search with the embedding and the links route all
    answer, the pipeline returns a result, whether the rewriting call
    returns or throws. *)
Theorem X14_pipeline_returns_when_stages_answer w messages q log :
  (exists c, chat_completions_create w (classify_request q messages) = Returned c) ->
  (exists c, chat_completions_create w (greeting_request q) = Returned c) ->
  (exists c, chat_completions_create w (not_relevant_request q) = Returned c) ->
  (forall context,
     exists c, chat_completions_create w (generation_request messages context q)
               = Returned c) ->
  (forall value, exists embedding, embed w value = Returned embedding) ->
  (forall value embedding,
     embed w value = Returned embedding ->
     exists rows, client_query w embedding "bents" 10 = Returned rows) ->
  answers (fetch_links w) ->
  exists r log', pipeline w messages q log = (Returned r, log').
Proof.
  intros [c Hc] [cg Hg] [cn Hn] Hgen Hembed Hsearch Hlinks.
  destruct (short_circuits (relevance_of c)) eqn:Hs.
  - destruct (short_circuits_cases _ Hs) as [L | [L | L]].
    + rewrite (pipeline_greeting _ _ _ _ _ Hc L), Hg. by eexists _, _.
    + rewrite (pipeline_inappropriate _ _ _ _ _ Hc L). by eexists _, _.
    + rewrite (pipeline_not_relevant _ _ _ _ _ Hc L), Hn. by eexists _, _.
  - rewrite (pipeline_otherwise _ _ _ _ _ Hc Hs), relevant_path_run. simpl.
    destruct (Hembed (rewritten_in w q messages)) as [embedding He].
    destruct (Hsearch _ _ He) as [rows Hq]. rewrite He, Hq, links_request_run.
    destruct (Hgen (contextTexts (document_of <$> rows))) as [ca ->].
    destruct (truthy _); [|by eexists _, _].
    destruct (Hlinks (contextTexts (document_of <$> rows))
                (rewritten_in w q messages)) as (st & data & ->).
    by eexists _, _.
Qed.

Lemma X14_pipeline_returns_when_stages_answer_witness :
  exists r log',
    pipeline (sample_world failing_rewrite_script) sample_messages sample_question []
      = (Returned r, log').
Proof.
  apply (X14_pipeline_returns_when_stages_answer (sample_world failing_rewrite_script)
           sample_messages sample_question []).
  - eexists. vm_compute. reflexivity.
  - eexists. vm_compute. reflexivity.
  - eexists. vm_compute. reflexivity.
  - intros context. eexists. reflexivity.
  - intros value. eexists. reflexivity.
  - intros value embedding [= <-]. eexists. vm_compute. reflexivity.
  - intros context query. eexists _, _. reflexivity.
Defined.

(** *** The JSON text of the history *)

(** X15.  The JSON text of a chat history determines the history: two
    histories with the same text are equal, whatever their contents hold
    (quotes, backslashes, control characters), and this stays so when the
    text is followed by more text, as it is inside a prompt. *)
Theorem X15_history_text_determines_history (h h' : list ChatHistory) :
  (JSON_stringify h = JSON_stringify h' -> h = h') /\
  (forall r r',
     JSON_stringify h +:+ r = JSON_stringify h' +:+ r' -> h = h' /\ r = r').
Proof.
  split; [|intros r r'; apply JSON_stringify_inj].
  intros H. apply (JSON_stringify_inj h h' "" "").
  by rewrite H.
Qed.

Lemma X15_history_text_determines_history_witness :
  drop 2 long_history = slice_last 5 long_history /\
  (drop 2 long_history = slice_last 5 long_history /\ nl = nl).
Proof.
  destruct (X15_history_text_determines_history
              (drop 2 long_history) (slice_last 5 long_history)) as [H1 H2].
  split; [apply H1; reflexivity | apply (H2 nl nl); reflexivity].
Defined.

(** X16.  For one question, the classification prompt and the generation
    prompt of two histories are the same exactly when the two histories
    have the same last five messages; the rewriting prompts are the same
    exactly when the two histories are the same. *)
Theorem X16_prompts_and_history q context (h h' : list ChatHistory) :
  (relevancePrompt q h = relevancePrompt q h'
     <-> slice_last 5 h = slice_last 5 h') /\
  (generationPrompt h context q = generationPrompt h' context q
     <-> slice_last 5 h = slice_last 5 h') /\
  (rewritePrompt q h = rewritePrompt q h' <-> h = h').
Proof.
  split; [|split]; split.
  - unfold relevancePrompt. intros H.
    apply (inj (String.app _)) in H. by apply JSON_stringify_inj in H as [? _].
  - unfold relevancePrompt. by intros ->.
  - unfold generationPrompt. intros H.
    do 2 apply (inj (String.app _)) in H. by apply JSON_stringify_inj in H as [? _].
  - unfold generationPrompt. by intros ->.
  - unfold rewritePrompt. intros H.
    do 3 apply (inj (String.app _)) in H. by apply JSON_stringify_inj in H as [? _].
  - by intros ->.
Qed.

Lemma X16_prompts_and_history_witness :
  relevancePrompt sample_question long_history =
    relevancePrompt sample_question (drop 2 long_history) /\
  generationPrompt long_history "" sample_question =
    generationPrompt (drop 2 long_history) "" sample_question /\
  slice_last 7 long_history = long_history.
Proof.
  destruct (X16_prompts_and_history sample_question "" long_history
              (drop 2 long_history)) as ((_ & Hc) & (_ & Hg) & _).
  destruct (X16_prompts_and_history sample_question "" (slice_last 7 long_history)
              long_history) as (_ & _ & (Hr & _)).
  split; [apply Hc; reflexivity|]. split; [apply Hg; reflexivity|].
  apply Hr. reflexivity.
Defined.
